(** * python_ai_coding_standards: the lookup, search and assistant API

    A shallow embedding of [standards/data.py], [core/api.py], [ai.py] and
    of [export_json] from [cli.py], followed by the properties of the
    repository's specification that are settled against it.

    Python values are modelled as follows.
    - [str] is a list of Unicode code points ([pystr]); literals of the
      source are written as UTF-8 text and decoded by [py].
    - a [dict] is an association list in insertion order (Python dicts
      iterate in insertion order; every dict literal of the source has
      distinct keys).
    - an exception is a value of [exn]; a function that can raise returns
      a [result]. *)

From Stdlib Require Import List String Ascii NArith Bool Arith Lia.
Import ListNotations.

Open Scope string_scope.
Open Scope list_scope.

(* ================================================================== *)
(** ** Python strings *)
(* ================================================================== *)

Module PyStr.

Local Open Scope N_scope.

Definition codepoint := N.
Definition pystr := list codepoint.

Fixpoint bytes_of (s : string) : list N :=
  match s with
  | EmptyString => []
  | String a r => N_of_ascii a :: bytes_of r
  end.

(** UTF-8 decoding of a source literal. A truncated sequence at the end
    of the text is kept byte by byte; no literal of the source has one. *)
Fixpoint utf8_decode (bs : list N) : pystr :=
  match bs with
  | [] => []
  | b0 :: r0 =>
    if b0 <? 0x80 then b0 :: utf8_decode r0
    else
      match r0 with
      | [] => [b0]
      | b1 :: r1 =>
        if b0 <? 0xE0 then ((b0 - 0xC0) * 64 + (b1 - 0x80)) :: utf8_decode r1
        else
          match r1 with
          | [] => [b0; b1]
          | b2 :: r2 =>
            if b0 <? 0xF0
            then (((b0 - 0xE0) * 64 + (b1 - 0x80)) * 64 + (b2 - 0x80))
                   :: utf8_decode r2
            else
              match r2 with
              | [] => [b0; b1; b2]
              | b3 :: r3 =>
                ((((b0 - 0xF0) * 64 + (b1 - 0x80)) * 64 + (b2 - 0x80)) * 64
                 + (b3 - 0x80)) :: utf8_decode r3
              end
          end
      end
  end.

Definition py (s : string) : pystr := utf8_decode (bytes_of s).

(** The double quote and the line feed, which the literals below name
    instead of spelling. *)
Definition dq : string := String (ascii_of_nat 34) EmptyString.
Definition nl : string := String (ascii_of_nat 10) EmptyString.

(** [unlines [l1; ...; ln]] is the text [l1 \n ... \n ln]. A triple-quoted
    literal of the source that opens and closes on lines of its own is
    [unlines (EmptyString :: lines ++ [EmptyString])]. *)
Fixpoint unlines (ls : list string) : string :=
  match ls with
  | [] => EmptyString
  | [l] => l
  | l :: rest => (l ++ nl ++ unlines rest)%string
  end.

Definition pystr_eqb (a b : pystr) : bool :=
  if list_eq_dec N.eq_dec a b then true else false.

(** [str.lower()]. The mapping is the one of the ASCII letters; every
    other code point is left as it is. All text of the content store and
    every literal query of the source is ASCII or box-drawing characters,
    which have no case. The case tables of the interpreter for cased
    letters outside ASCII are not part of the repository. *)
Definition lower_cp (c : codepoint) : codepoint :=
  if (65 <=? c) && (c <=? 90) then c + 32 else c.

Definition lower (s : pystr) : pystr := map lower_cp s.

(** [str.isspace()] on one code point: the white space that [str.strip()]
    removes. *)
Definition isspace (c : codepoint) : bool :=
  ((0x09 <=? c) && (c <=? 0x0D)) || ((0x1C <=? c) && (c <=? 0x20))
  || (c =? 0x85) || (c =? 0xA0) || (c =? 0x1680)
  || ((0x2000 <=? c) && (c <=? 0x200A))
  || (c =? 0x2028) || (c =? 0x2029) || (c =? 0x202F) || (c =? 0x205F)
  || (c =? 0x3000).

Fixpoint lstrip (s : pystr) : pystr :=
  match s with
  | [] => []
  | c :: r => if isspace c then lstrip r else s
  end.

Definition rstrip (s : pystr) : pystr := rev (lstrip (rev s)).

(** [s.strip()] *)
Definition strip (s : pystr) : pystr := rstrip (lstrip s).

(** [s.split(sep)] for a separator of one code point, the only form the
    source uses ([split("\n")]). *)
Fixpoint split (sep : codepoint) (s : pystr) : list pystr :=
  match s with
  | [] => [[]]
  | c :: r =>
    if c =? sep then [] :: split sep r
    else
      match split sep r with
      | [] => [[c]]
      | l :: ls => (c :: l) :: ls
      end
  end.

Fixpoint startswith (s prefix : pystr) : bool :=
  match prefix, s with
  | [], _ => true
  | _ :: _, [] => false
  | a :: p', b :: s' => (a =? b) && startswith s' p'
  end.

(** [needle in hay] on two strings. *)
Fixpoint str_in (needle hay : pystr) : bool :=
  startswith hay needle
  || match hay with
     | [] => false
     | _ :: r => str_in needle r
     end.

(** [sep.join(parts)] *)
Fixpoint join (sep : pystr) (parts : list pystr) : pystr :=
  match parts with
  | [] => []
  | [p] => p
  | p :: rest => p ++ sep ++ join sep rest
  end.

Definition hex_digit (n : N) : codepoint :=
  if n <? 10 then 48 + n else 87 + n.

(** [repr(s)] of a string: single quotes unless the text holds a single
    quote and no double quote; the quote and the backslash are escaped,
    and so are the control characters. Code points from U+0100 on are
    taken as printable. *)
Definition repr_cp (quote c : codepoint) : pystr :=
  if (c =? quote) || (c =? 92) then [92; c]
  else if c =? 9 then [92; 116]
  else if c =? 10 then [92; 110]
  else if c =? 13 then [92; 114]
  else if (c <? 32) || ((127 <=? c) && (c <=? 160)) || (c =? 173)
       then [92; 120; hex_digit (c / 16); hex_digit (c mod 16)]
  else [c].

Definition has_cp (c : codepoint) (s : pystr) : bool :=
  existsb (N.eqb c) s.

Definition repr_str (s : pystr) : pystr :=
  let quote := if has_cp 39 s && negb (has_cp 34 s) then 34 else 39 in
  [quote] ++ flat_map (repr_cp quote) s ++ [quote].

End PyStr.

Export PyStr.

(* ================================================================== *)
(** ** Values, exceptions and dicts *)
(* ================================================================== *)

(** The values held by the fields of an example record: text, or a nested
    mapping from task to command (the [commands] field). *)
Inductive pyval : Type :=
| VStr (s : pystr)
| VDict (d : list (pystr * pystr)).

(** An example record, [dict[str, Any]] in the source. *)
Definition ExampleRecord : Type := list (pystr * pyval).

(** [StandardInfo], the [TypedDict] of [core/api.py]. *)
Record StandardInfo : Type := {
  title : pystr;
  description : pystr;
  examples : list ExampleRecord;
  guidelines : list pystr
}.

Inductive exn : Type :=
| ValueError (msg : pystr)
| KeyError (key : pystr)
| IndexError (msg : pystr)
| TypeError (msg : pystr)
| OSError (msg : pystr).

Inductive result (A : Type) : Type :=
| Ok (a : A)
| Raise (e : exn).

Arguments Ok {A} a.
Arguments Raise {A} e.

Definition bind {A B : Type} (r : result A) (k : A -> result B) : result B :=
  match r with
  | Ok a => k a
  | Raise e => Raise e
  end.

Notation "x <- r ;; k" := (bind r (fun x => k))
  (at level 61, r at next level, right associativity).

(** [key in d] *)
Definition dict_in {V : Type} (key : pystr) (d : list (pystr * V)) : bool :=
  existsb (fun kv => pystr_eqb (fst kv) key) d.

(** [d[key]], which raises [KeyError] when the key is absent. *)
Fixpoint dict_get {V : Type} (d : list (pystr * V)) (key : pystr) : result V :=
  match d with
  | [] => Raise (KeyError key)
  | (k, v) :: rest => if pystr_eqb k key then Ok v else dict_get rest key
  end.

(** [d[key] = v]: the value of a present key is replaced in place, a new
    key goes to the end. *)
Fixpoint dict_set {V : Type} (d : list (pystr * V)) (key : pystr) (v : V)
  : list (pystr * V) :=
  match d with
  | [] => [(key, v)]
  | (k, w) :: rest =>
    if pystr_eqb k key then (k, v) :: rest else (k, w) :: dict_set rest key v
  end.

(** [dict(pairs)] *)
Definition dict_of {V : Type} (pairs : list (pystr * V)) : list (pystr * V) :=
  fold_left (fun d kv => dict_set d (fst kv) (snd kv)) pairs [].

(** [repr] of a dict of strings. *)
Definition repr_strdict (d : list (pystr * pystr)) : pystr :=
  py "{"
  ++ join (py ", ")
          (map (fun kv => repr_str (fst kv) ++ py ": " ++ repr_str (snd kv)) d)
  ++ py "}".

Definition repr_val (v : pyval) : pystr :=
  match v with
  | VStr s => repr_str s
  | VDict d => repr_strdict d
  end.

(** [str(v)] of a field value. *)
Definition str_val (v : pyval) : pystr :=
  match v with
  | VStr s => s
  | VDict d => repr_strdict d
  end.

(** [str(example)] of a whole example record. *)
Definition str_example (e : ExampleRecord) : pystr :=
  py "{"
  ++ join (py ", ")
          (map (fun kv => repr_str (fst kv) ++ py ": " ++ repr_val (snd kv)) e)
  ++ py "}".

(** [v == s] for a field value and a string. *)
Definition val_eq_str (v : pyval) (s : pystr) : bool :=
  match v with
  | VStr t => pystr_eqb t s
  | VDict _ => false
  end.

(* ================================================================== *)
(** ** standards/data.py *)
(* ================================================================== *)

Module data.

Definition PROJECT_STRUCTURE : StandardInfo :=
  {| title := py "Project Structure";
     description := py "Recommended src-layout structure for Python projects";
     examples :=
       [ [ (py "title", VStr (py "Standard project layout"));
           (py "code", VStr (py (unlines
              [ EmptyString;
                "project/";
                "├── src/";
                "│   └── package_name/";
                "│       ├── __init__.py";
                "│       ├── main.py";
                "│       ├── api/         # For web/API projects";
                "│       ├── core/        # Core functionality";
                "│       ├── db/          # Database related code";
                "│       ├── models/      # Data models";
                "│       └── schemas/     # Data validation schemas";
                "├── tests/";
                "│   ├── __init__.py";
                "│   └── test_*.py";
                "├── pyproject.toml";
                "├── README.md";
                "└── .gitignore";
                EmptyString ]))) ] ];
     guidelines :=
       [ py "Use src-layout for all projects";
         py "Keep package name and directory structure aligned";
         py "Organize related functionality into modules";
         py "Use __init__.py files to define public API";
         py "Separate tests from implementation code";
         py "Use pyproject.toml for project configuration" ] |}.

Definition DEVELOPMENT_TOOLS : StandardInfo :=
  {| title := py "Development Tools";
     description := py "Recommended tools for Python development";
     examples :=
       [ [ (py "title", VStr (py "Common Hatch commands"));
           (py "commands",
            VDict [ (py "tests", py "hatch run test");
                   (py "linting", py "hatch run lint");
                   (py "type_checking", py "hatch run type");
                   (py "formatting", py "hatch run format");
                   (py "development_server", py "hatch run dev") ]) ] ];
     guidelines :=
       [ py "Use Ruff for linting and formatting";
         py "Use MyPy (with --strict) for static type checking";
         py "Use Pytest for testing";
         py "Use Hatch for project management";
         py "Use Docker for containerization when needed";
         py "Always use pyproject.toml for project configuration" ] |}.

Definition OOP_PRINCIPLES : StandardInfo :=
  {| title := py "Object-Oriented Programming Principles";
     description := py "Best practices for OOP in Python";
     examples :=
       [ [ (py "title", VStr (py "Single Responsibility Principle (SRP)"));
           (py "bad_example", VStr (py (unlines
              [ EmptyString;
                "# Bad: Class doing too much";
                "class UserManager:";
                "    def create_user(self) -> None: ...";
                "    def send_email(self) -> None: ...";
                "    def validate_password(self) -> None: ...";
                EmptyString ])));
           (py "good_example", VStr (py (unlines
              [ EmptyString;
                "# Good: Separate responsibilities";
                "class UserCreator:";
                "    def create_user(self) -> None: ...";
                EmptyString;
                "class EmailService:";
                "    def send_email(self) -> None: ...";
                EmptyString;
                "class PasswordValidator:";
                "    def validate_password(self) -> None: ...";
                EmptyString ]))) ];
         [ (py "title", VStr (py "Open/Closed Principle (OCP)"));
           (py "bad_example", VStr (py (unlines
              [ EmptyString;
                "# Bad: Modifying existing class";
                "class PaymentProcessor:";
                "    def process_payment(self, payment_type: str) -> None:";
                ("        if payment_type == " ++ dq ++ "credit" ++ dq ++ ":")%string;
                "            # process credit";
                ("        elif payment_type == " ++ dq ++ "paypal" ++ dq ++ ":")%string;
                "            # process paypal";
                EmptyString ])));
           (py "good_example", VStr (py (unlines
              [ EmptyString;
                "# Good: Extending through inheritance";
                "class PaymentProcessor:";
                "    def process_payment(self) -> None: ...";
                EmptyString;
                "class CreditCardProcessor(PaymentProcessor):";
                "    def process_payment(self) -> None: ...";
                EmptyString;
                "class PayPalProcessor(PaymentProcessor):";
                "    def process_payment(self) -> None: ...";
                EmptyString ]))) ] ];
     guidelines :=
       [ py "Apply Single Responsibility Principle (SRP)";
         py "Follow Open/Closed Principle (OCP)";
         py "Use Interface Segregation where appropriate";
         py "Apply Dependency Inversion for loosely coupled code";
         py "Prefer Composition over Inheritance" ] |}.

Definition DESIGN_PATTERNS : StandardInfo :=
  {| title := py "Design Patterns";
     description := py "Recommended design patterns for Python";
     examples :=
       [ [ (py "title", VStr (py "Factory Pattern"));
           (py "code", VStr (py (unlines
              [ EmptyString;
                "class PaymentMethodFactory:";
                "    @staticmethod";
                "    def create_payment_method(method_type: str) -> PaymentMethod:";
                "        match method_type:";
                ("            case " ++ dq ++ "credit" ++ dq ++ ": return CreditCardPayment()")%string;
                ("            case " ++ dq ++ "paypal" ++ dq ++ ": return PayPalPayment()")%string;
                ("            case _: raise ValueError(f" ++ dq ++ "Unknown payment method: {method_type}" ++ dq ++ ")")%string;
                EmptyString ]))) ];
         [ (py "title", VStr (py "Strategy Pattern"));
           (py "code", VStr (py (unlines
              [ EmptyString;
                "class SortStrategy(Protocol):";
                "    def sort(self, data: list[int]) -> list[int]: ...";
                EmptyString;
                "class QuickSort:";
                "    def sort(self, data: list[int]) -> list[int]: ...";
                EmptyString;
                "class MergeSort:";
                "    def sort(self, data: list[int]) -> list[int]: ...";
                EmptyString ]))) ] ];
     guidelines :=
       [ py "Use Factory Pattern for object creation";
         py "Apply Strategy Pattern for interchangeable algorithms";
         py "Implement Observer Pattern for event handling";
         py "Use Repository Pattern for data access";
         py "Use patterns judiciously - don't over-engineer" ] |}.

Definition DATA_STRUCTURES : StandardInfo :=
  {| title := py "Pythonic Data Structures and Idioms";
     description := py "Recommended data structures and Python idioms";
     examples :=
       [ [ (py "title", VStr (py "Appropriate data structures"));
           (py "code", VStr (py (unlines
              [ EmptyString;
                "# Sets for unique items";
                ("unique_items: set[str] = {" ++ dq ++ "apple" ++ dq ++ ", " ++ dq ++ "banana" ++ dq ++ ", " ++ dq ++ "apple" ++ dq ++ "}")%string;
                EmptyString;
                "# Dicts for key-value pairs";
                "user_preferences: dict[str, Any] = {";
                ("    " ++ dq ++ "theme" ++ dq ++ ": " ++ dq ++ "dark" ++ dq ++ ",")%string;
                ("    " ++ dq ++ "notifications" ++ dq ++ ": True")%string;
                "}";
                EmptyString;
                "# Lists for ordered collections";
                ("items: list[str] = [" ++ dq ++ "first" ++ dq ++ ", " ++ dq ++ "second" ++ dq ++ ", " ++ dq ++ "third" ++ dq ++ "]")%string;
                EmptyString ]))) ];
         [ (py "title", VStr (py "Built-in types"));
           (py "code", VStr (py (unlines
              [ EmptyString;
                "# Use Enum for constants";
                "class Color(Enum):";
                ("    RED = " ++ dq ++ "red" ++ dq)%string;
                ("    GREEN = " ++ dq ++ "green" ++ dq)%string;
                ("    BLUE = " ++ dq ++ "blue" ++ dq)%string;
                EmptyString;
                "# Use NamedTuple for simple data";
                "class Point(NamedTuple):";
                "    x: float";
                "    y: float";
                EmptyString ]))) ] ];
     guidelines :=
       [ py "Choose appropriate data structures for the use case";
         py "Use sets for collections of unique items";
         py "Use dictionaries for lookups and mappings";
         py "Use lists for ordered collections";
         py "Leverage Enum for structured constants";
         py "Use NamedTuple and dataclasses for simple data objects" ] |}.

Definition MODERN_FEATURES : StandardInfo :=
  {| title := py "Modern Python Features";
     description := py "Recent Python features to leverage";
     examples :=
       [ [ (py "title", VStr (py "Data Classes"));
           (py "code", VStr (py (unlines
              [ EmptyString;
                "@dataclass(slots=True)";
                "class User:";
                "    name: str";
                "    email: str";
                "    age: int";
                "    is_active: bool = True";
                EmptyString ]))) ];
         [ (py "title", VStr (py "Type Annotations and Generics"));
           (py "code", VStr (py (unlines
              [ EmptyString;
                "def process_items[T](items: list[T]) -> list[T]:";
                "    return [item for item in items if item is not None]";
                EmptyString ]))) ];
         [ (py "title", VStr (py "Context Managers"));
           (py "code", VStr (py (unlines
              [ EmptyString;
                "@contextmanager";
                "def managed_resource():";
                "    resource = acquire_resource()";
                "    try:";
                "        yield resource";
                "    finally:";
                "        release_resource(resource)";
                EmptyString ]))) ] ];
     guidelines :=
       [ py "Use dataclasses for data containers";
         py "Apply type annotations with PEP 695 generics";
         py "Leverage context managers for resource handling";
         py "Use structural pattern matching for complex conditionals";
         py "Take advantage of f-strings for string formatting" ] |}.

Definition FUNCTIONAL_PROGRAMMING : StandardInfo :=
  {| title := py "Functional Programming in Python";
     description := py "Functional programming techniques for Python";
     examples :=
       [ [ (py "title", VStr (py "List Comprehensions"));
           (py "code", VStr (py (unlines
              [ EmptyString;
                "squares = [x**2 for x in range(10) if x % 2 == 0]";
                EmptyString ]))) ];
         [ (py "title", VStr (py "Generator Expressions"));
           (py "code", VStr (py (unlines
              [ EmptyString;
                "large_squares = (x**2 for x in range(1000000) if x % 2 == 0)";
                EmptyString ]))) ];
         [ (py "title", VStr (py "Lambda Functions"));
           (py "good_example", VStr (py (unlines
              [ EmptyString;
                "# Good: Simple operations";
                "square = lambda x: x**2";
                EmptyString ])));
           (py "bad_example", VStr (py (unlines
              [ EmptyString;
                "# Bad: Complex logic";
                "process_data = lambda x: (x**2 if x > 0 else 0) + (x if x < 10 else 10)";
                EmptyString ]))) ] ];
     guidelines :=
       [ py "Use list comprehensions over loops when appropriate";
         py "Prefer generator expressions for large datasets";
         py "Use lambda functions sparingly and only for simple operations";
         py "Prefer comprehensions over map/filter/reduce";
         py "Use higher-order functions to abstract patterns" ] |}.

Definition ERROR_HANDLING : StandardInfo :=
  {| title := py "Error Handling and Resource Management";
     description := py "Best practices for handling errors and resources";
     examples :=
       [ [ (py "title", VStr (py "Custom exceptions"));
           (py "code", VStr (py (unlines
              [ EmptyString;
                "class DomainError(Exception):";
                ("    " ++ dq ++ dq ++ dq ++ "Base exception for all domain errors." ++ dq ++ dq ++ dq)%string;
                "    ";
                "class UserNotFoundError(DomainError):";
                ("    " ++ dq ++ dq ++ dq ++ "Raised when a user cannot be found." ++ dq ++ dq ++ dq)%string;
                "    def __init__(self, user_id: str) -> None:";
                "        self.user_id = user_id";
                ("        super().__init__(f" ++ dq ++ "User not found: {user_id}" ++ dq ++ ")")%string;
                EmptyString ]))) ];
         [ (py "title", VStr (py "Context managers for resources"));
           (py "code", VStr (py (unlines
              [ EmptyString;
                ("with open(" ++ dq ++ "file.txt" ++ dq ++ ") as f:")%string;
                "    data = f.read()";
                "    ";
                "# Or custom context managers";
                "@contextmanager";
                "def database_transaction():";
                "    transaction = db.begin()";
                "    try:";
                "        yield transaction";
                "        transaction.commit()";
                "    except Exception:";
                "        transaction.rollback()";
                "        raise";
                EmptyString ]))) ] ];
     guidelines :=
       [ py "Use specific exceptions rather than generic ones";
         py "Create custom exception hierarchies for domain errors";
         py "Always use context managers for resource management";
         py "Catch only exceptions you can handle";
         py "Include relevant error context in exception messages";
         py "Document error conditions in function docstrings" ] |}.

Definition TESTING : StandardInfo :=
  {| title := py "Testing and Quality";
     description := py "Best practices for testing Python code";
     examples :=
       [ [ (py "title", VStr (py "Unit test"));
           (py "code", VStr (py (unlines
              [ EmptyString;
                "def test_user_creation():";
                ("    user = User(name=" ++ dq ++ "Test" ++ dq ++ ", email=" ++ dq ++ "test@example.com" ++ dq ++ ")")%string;
                ("    assert user.name == " ++ dq ++ "Test" ++ dq)%string;
                ("    assert user.email == " ++ dq ++ "test@example.com" ++ dq)%string;
                "    assert user.is_active is True  # Default value";
                EmptyString ]))) ];
         [ (py "title", VStr (py "Mocking dependencies"));
           (py "code", VStr (py (unlines
              [ EmptyString;
                ("@patch(" ++ dq ++ "app.services.email_sender.send_email" ++ dq ++ ")")%string;
                "def test_welcome_email(mock_send_email):";
                "    service = UserService()";
                ("    service.create_user(" ++ dq ++ "Test" ++ dq ++ ", " ++ dq ++ "test@example.com" ++ dq ++ ")")%string;
                "    ";
                "    mock_send_email.assert_called_once_with(";
                ("        to=" ++ dq ++ "test@example.com" ++ dq ++ ",")%string;
                ("        subject=" ++ dq ++ "Welcome to Our Service" ++ dq ++ ",")%string;
                "        body=ANY,";
                "    )";
                EmptyString ]))) ] ];
     guidelines :=
       [ py "Write unit tests for all public methods";
         py "Consider property-based testing for complex logic";
         py "Always mock external dependencies";
         py "Include type checking in CI/CD pipeline";
         py "Aim for high test coverage on business logic";
         py "Use fixtures to set up test data" ] |}.

Definition ENVIRONMENT : StandardInfo :=
  {| title := py "Development Environment";
     description := py "Recommended development environment setup";
     examples := [];
     guidelines :=
       [ py "Use Python 3.11+ for new projects";
         py "Set up Docker for consistent development environments";
         py "Use VS Code with Python extensions for a great IDE experience";
         py "Manage virtual environments with Hatch or pixi";
         py "Configure editor to use Ruff for linting and formatting" ] |}.

Definition AI_GUIDELINES : StandardInfo :=
  {| title := py "AI Assistance Guidelines";
     description := py "Guidelines for AI assistants generating Python code";
     examples := [];
     guidelines :=
       [ py "Always include type hints in generated code";
         py "Use modern Python features like PEP 695 generics";
         py "Follow the project's linting rules";
         py "Maintain or improve test coverage";
         py "Consider async/await patterns where appropriate";
         py "Follow the src-layout project structure";
         py "Use Hatch commands for development tasks";
         py "Run ruff check and mypy --strict";
         py "Document any non-obvious code decisions";
         py "Consider performance implications of suggestions" ] |}.

Definition PROJECT_TYPES : StandardInfo :=
  {| title := py "Common Project Types";
     description := py "Recommendations for specific types of Python projects";
     examples := [];
     guidelines :=
       [ py "Web/API: Use FastAPI, SQLAlchemy, Pydantic, and Alembic";
         py "CLI: Use Click or Typer with Rich for terminal output";
         py "Data Processing: Use pandas, numpy with proper error handling";
         py "Libraries: Design clear public APIs with comprehensive docs" ] |}.

End data.

(* ================================================================== *)
(** ** core/api.py *)
(* ================================================================== *)

Module api.

Import data.

(** The [Literal] type of category identifiers. *)
Definition StandardCategory : list pystr :=
  [ py "project_structure";
    py "development_tools";
    py "oop_principles";
    py "design_patterns";
    py "data_structures";
    py "modern_features";
    py "functional_programming";
    py "error_handling";
    py "testing";
    py "environment";
    py "ai_guidelines";
    py "project_types" ].

Definition _STANDARDS_MAP : list (pystr * StandardInfo) :=
  [ (py "project_structure", PROJECT_STRUCTURE);
    (py "development_tools", DEVELOPMENT_TOOLS);
    (py "oop_principles", OOP_PRINCIPLES);
    (py "design_patterns", DESIGN_PATTERNS);
    (py "data_structures", DATA_STRUCTURES);
    (py "modern_features", MODERN_FEATURES);
    (py "functional_programming", FUNCTIONAL_PROGRAMMING);
    (py "error_handling", ERROR_HANDLING);
    (py "testing", TESTING);
    (py "environment", ENVIRONMENT);
    (py "ai_guidelines", AI_GUIDELINES);
    (py "project_types", PROJECT_TYPES) ].

Definition get_all_categories : list (pystr * pystr) :=
  map (fun item => (fst item, title (snd item))) _STANDARDS_MAP.

Definition get_standard (category : pystr) : result StandardInfo :=
  if negb (dict_in category _STANDARDS_MAP)
  then Raise (ValueError (py "Unknown standard category: " ++ category))
  else dict_get _STANDARDS_MAP category.

(** A search result: (category, matched_field, content). *)
Definition search_result : Type := pystr * pystr * pystr.

(** The body of the loop over the categories. *)
Definition search_category (query : pystr) (results : list search_result)
    (item : pystr * StandardInfo) : list search_result :=
  let category := fst item in
  let data := snd item in
  (* Search in title *)
  let results :=
    if str_in query (lower (title data))
    then results ++ [(category, py "title", title data)]
    else results in
  (* Search in description *)
  let results :=
    if str_in query (lower (description data))
    then results ++ [(category, py "description", description data)]
    else results in
  (* Search in guidelines *)
  let results :=
    fold_left
      (fun results guideline =>
         if str_in query (lower guideline)
         then results ++ [(category, py "guideline", guideline)]
         else results)
      (guidelines data) results in
  (* Search in examples *)
  let results :=
    fold_left
      (fun results example =>
         fold_left
           (fun results kv =>
              match snd kv with
              | VStr value =>
                if str_in query (lower value)
                then results ++ [(category, py "example." ++ fst kv, value)]
                else results
              | VDict _ => results
              end)
           example results)
      (examples data) results in
  results.

Definition search_standards (query : pystr) : list search_result :=
  let results := [] in
  let query := lower query in
  fold_left (search_category query) _STANDARDS_MAP results.

End api.

(* ================================================================== *)
(** ** ai.py *)
(* ================================================================== *)

Module ai.

Import api.

(** [xs[0]] *)
Definition list_first {A : Type} (xs : list A) : result A :=
  match xs with
  | [] => Raise (IndexError (py "list index out of range"))
  | x :: _ => Ok x
  end.

(** The text taken from a chosen example; the source writes this
    three-way choice out in both branches of [get_example]. *)
Definition example_text (example : ExampleRecord) : result pystr :=
  if dict_in (py "code") example then
    v <- dict_get example (py "code") ;;
    Ok (strip (str_val v))
  else if dict_in (py "good_example") example then
    v <- dict_get example (py "good_example") ;;
    Ok (strip (str_val v))
  else Ok (str_example example).

(** The [for example in standard["examples"]] loop of [get_example], with
    the [raise] that follows it. *)
Fixpoint get_example_scan (category example_title : pystr)
    (exs : list ExampleRecord) : result pystr :=
  match exs with
  | [] =>
    Raise (ValueError (py "Example '" ++ example_title
                       ++ py "' not found in category: " ++ category))
  | example :: rest =>
    t <- dict_get example (py "title") ;;
    if val_eq_str t example_title then example_text example
    else get_example_scan category example_title rest
  end.

(** [get_example(category, example_title=None)]. The test
    [if example_title:] is a truth test: [None] and the empty string both
    take the [else] branch. *)
Definition get_example (category : pystr) (example_title : option pystr)
  : result pystr :=
  standard <- get_standard category ;;
  match examples standard with
  | [] =>
    Raise (ValueError (py "No examples available for category: " ++ category))
  | _ :: _ =>
    match example_title with
    | Some (c :: s) => get_example_scan category (c :: s) (examples standard)
    | Some [] | None =>
      example <- list_first (examples standard) ;;
      example_text example
    end
  end.

(** The canned suggestions of [suggest_improvements], in the order of the
    checks. *)
Definition msg_type_hints : pystr :=
  py "Add type hints to function return values and parameters".
Definition msg_lambda : pystr :=
  py "Replace complex lambda functions with named functions for better readability".
Definition msg_dataclass : pystr :=
  py "Consider using @dataclass to simplify this class definition".
Definition msg_mutable_default : pystr :=
  py "Avoid using mutable default arguments (lists, dicts, etc.)".
Definition msg_context_manager : pystr :=
  py "Use context managers (with statement) for file operations".
Definition msg_specific_exceptions : pystr :=
  py "Use specific exceptions instead of catching all exceptions".

(** The six pattern checks of [suggest_improvements]: the state of
    [suggestions] just before the recommendations from the standards are
    added. *)
Definition heuristic_suggestions (code_snippet : pystr) : list pystr :=
  let suggestions := [] in
  (* Look for missing type hints *)
  let suggestions :=
    if str_in (py "def ") code_snippet && negb (str_in (py ") ->") code_snippet)
    then suggestions ++ [msg_type_hints] else suggestions in
  (* Look for lambda functions with complex logic *)
  let suggestions :=
    if str_in (py "lambda") code_snippet && str_in (py "if") code_snippet
       && str_in (py "else") code_snippet
    then suggestions ++ [msg_lambda] else suggestions in
  (* Look for potential data class candidates *)
  let lines_with_init_assignments := 0%nat in
  let suggestions :=
    if str_in (py "def __init__") code_snippet then
      let lines_with_init_assignments :=
        fold_left
          (fun n line =>
             if str_in (py "self.") line && str_in (py " = ") line
             then S n else n)
          (split 10%N code_snippet) lines_with_init_assignments in
      if (3 <=? lines_with_init_assignments)%nat
      then suggestions ++ [msg_dataclass] else suggestions
    else suggestions in
  (* Look for using mutable default arguments *)
  let suggestions :=
    if str_in (py "def ") code_snippet && str_in (py "[]") code_snippet
       && str_in (py " = []") code_snippet
    then suggestions ++ [msg_mutable_default] else suggestions in
  (* Look for lack of context managers for file handling *)
  let suggestions :=
    if str_in (py "open(") code_snippet
       && negb (str_in (py "with open") code_snippet)
    then suggestions ++ [msg_context_manager] else suggestions in
  (* Look for generic exceptions *)
  let suggestions :=
    if str_in (py "except:") code_snippet
       || str_in (py "except Exception:") code_snippet
    then suggestions ++ [msg_specific_exceptions] else suggestions in
  suggestions.

(** [suggest_improvements(code_snippet)]. The content of a search result
    is always a [str], so [isinstance(content, str)] holds and only the
    length test remains. *)
Definition suggest_improvements (code_snippet : pystr) : list pystr :=
  let suggestions := heuristic_suggestions code_snippet in
  (* Add recommendation from our standards *)
  let standards_results := search_standards (py "best practice") in
  match standards_results with
  | [] => suggestions
  | _ :: _ =>
    fold_left
      (fun suggestions r =>
         let content := snd r in
         if (List.length content <? 200)%nat
         then suggestions ++ [content] else suggestions)
      (firstn 2 standards_results) suggestions
  end.

Definition project_structure_fallback : pystr :=
  py (unlines
    [ EmptyString;
      "project/";
      "├── src/";
      "│   └── package_name/";
      "│       ├── __init__.py";
      "│       ├── main.py";
      "├── tests/";
      "│   ├── __init__.py";
      "│   └── test_*.py";
      "├── pyproject.toml";
      "├── README.md";
      "└── .gitignore";
      EmptyString ]).

Definition structure_response (structure : pystr) : pystr :=
  py (unlines
    [ EmptyString;
      "## Recommended Project Structure";
      EmptyString;
      "```";
      EmptyString ])
  ++ structure
  ++ py (unlines
    [ EmptyString;
      "```";
      EmptyString;
      "**Key points:**";
      "- Use src-layout for better packaging";
      "- Keep tests separate from implementation";
      "- Use pyproject.toml for configuration";
      "- Group related functionality in modules";
      EmptyString ]).

Definition toolchain_response : pystr :=
  py (unlines
    [ EmptyString;
      "## Recommended Toolchain";
      EmptyString;
      "- **Linter/Formatter:** Ruff";
      "- **Type Checking:** MyPy (--strict)";
      "- **Testing:** Pytest";
      "- **Project Management:** Hatch";
      "- **Python Version:** 3.11+";
      EmptyString;
      "**Common Commands:**";
      "- `hatch run test`: Run tests";
      "- `hatch run lint`: Run linting";
      "- `hatch run type`: Run type checking";
      "- `hatch run format`: Format code";
      "- `hatch run all`: Run all checks and tests";
      EmptyString ]).

Definition oop_response (example : pystr) : pystr :=
  py (unlines
    [ EmptyString;
      "## OOP Best Practices";
      EmptyString;
      "1. **Single Responsibility Principle (SRP)**: Each class should have one responsibility";
      "2. **Open/Closed Principle (OCP)**: Open for extension, closed for modification";
      "3. **Interface Segregation**: Prefer focused interfaces over general-purpose ones";
      "4. **Dependency Inversion**: Depend on abstractions, not concretions";
      "5. **Composition over Inheritance**: Prefer composition to inheritance when possible";
      EmptyString;
      "**Example - Single Responsibility Principle:**";
      "```python";
      EmptyString ])
  ++ example
  ++ py (unlines
    [ EmptyString;
      "```";
      EmptyString ]).

Definition oop_response_plain : pystr :=
  py (unlines
    [ EmptyString;
      "## OOP Best Practices";
      EmptyString;
      "1. **Single Responsibility Principle (SRP)**: Each class should have one responsibility";
      "2. **Open/Closed Principle (OCP)**: Open for extension, closed for modification";
      "3. **Interface Segregation**: Prefer focused interfaces over general-purpose ones";
      "4. **Dependency Inversion**: Depend on abstractions, not concretions";
      "5. **Composition over Inheritance**: Prefer composition to inheritance when possible";
      EmptyString ]).

Definition modern_response (example : pystr) : pystr :=
  py (unlines
    [ EmptyString;
      "## Modern Python Features";
      EmptyString;
      "1. **Data Classes**: Use for simple data containers";
      "2. **Type Annotations**: Include type hints with PEP 695 generics";
      "3. **Pattern Matching**: Use for complex conditional logic";
      "4. **Async/Await**: For asynchronous programming";
      "5. **Context Managers**: For resource management";
      EmptyString;
      "**Example - Type Annotations and Generics:**";
      "```python";
      EmptyString ])
  ++ example
  ++ py (unlines
    [ EmptyString;
      "```";
      EmptyString ]).

Definition modern_response_plain : pystr :=
  py (unlines
    [ EmptyString;
      "## Modern Python Features";
      EmptyString;
      "1. **Data Classes**: Use for simple data containers";
      "2. **Type Annotations**: Include type hints with PEP 695 generics";
      "3. **Pattern Matching**: Use for complex conditional logic";
      "4. **Async/Await**: For asynchronous programming";
      "5. **Context Managers**: For resource management";
      EmptyString ]).

Definition testing_response : pystr :=
  py (unlines
    [ EmptyString;
      "## Testing Best Practices";
      EmptyString;
      "1. **Unit Tests for All Public Methods**: Ensure all public functionality is tested";
      "2. **Mock External Dependencies**: Use unittest.mock or pytest-mock";
      "3. **Property-Based Testing**: Consider hypothesis for complex logic";
      "4. **Type Checking in CI/CD**: Run mypy as part of CI pipeline";
      "5. **Test Fixtures**: Use pytest fixtures for test setup and reuse";
      EmptyString;
      "**Example - Basic Unit Test:**";
      "```python";
      "def test_user_creation():";
      ("    user = User(name=" ++ dq ++ "Test" ++ dq ++ ", email=" ++ dq ++ "test@example.com" ++ dq ++ ")")%string;
      ("    assert user.name == " ++ dq ++ "Test" ++ dq)%string;
      ("    assert user.email == " ++ dq ++ "test@example.com" ++ dq)%string;
      "    assert user.is_active is True  # Default value";
      "```";
      EmptyString ]).

Definition functional_response (example : pystr) : pystr :=
  py (unlines
    [ EmptyString;
      "## Functional Programming in Python";
      EmptyString;
      "1. **List Comprehensions**: For transforming lists";
      "2. **Generator Expressions**: For memory-efficient sequence processing";
      "3. **Lambda Functions**: For simple operations only";
      "4. **Higher-Order Functions**: Functions that take functions as parameters";
      "5. **Pure Functions**: Functions without side effects";
      EmptyString;
      "**Example - List Comprehensions:**";
      "```python";
      EmptyString ])
  ++ example
  ++ py (unlines
    [ EmptyString;
      "```";
      EmptyString ]).

Definition functional_response_plain : pystr :=
  py (unlines
    [ EmptyString;
      "## Functional Programming in Python";
      EmptyString;
      "1. **List Comprehensions**: For transforming lists";
      "2. **Generator Expressions**: For memory-efficient sequence processing";
      "3. **Lambda Functions**: For simple operations only";
      "4. **Higher-Order Functions**: Functions that take functions as parameters";
      "5. **Pure Functions**: Functions without side effects";
      EmptyString ]).

Definition error_response : pystr :=
  py (unlines
    [ EmptyString;
      "## Error Handling Best Practices";
      EmptyString;
      "1. **Use Specific Exceptions**: Avoid catching general Exception";
      "2. **Create Custom Exceptions**: For domain-specific errors";
      "3. **Context Managers**: Use for resource management";
      "4. **Document Error Conditions**: In function docstrings";
      "5. **Include Context in Messages**: Make error messages informative";
      EmptyString;
      "**Example - Custom Exception Hierarchy:**";
      "```python";
      "class DomainError(Exception):";
      "    '''Base exception for all domain errors.'''";
      "    ";
      "class UserNotFoundError(DomainError):";
      "    '''Raised when a user cannot be found.'''";
      "    def __init__(self, user_id: str) -> None:";
      "        self.user_id = user_id";
      ("        super().__init__(f" ++ dq ++ "User not found: {user_id}" ++ dq ++ ")")%string;
      "```";
      EmptyString ]).

Definition default_response : pystr :=
  py (unlines
    [ EmptyString;
      "## Python Coding Standards - Quick Reference";
      EmptyString;
      "1. **Project Structure**: Use src-layout with pyproject.toml";
      "2. **Tools**: Ruff (linting/formatting), MyPy (type checking), Pytest (testing), Hatch (pkg mgmt)";
      "3. **Type Hints**: Always use type annotations with PEP 695 generics";
      "4. **Python Version**: Use Python 3.11+ for new projects";
      "5. **OOP Principles**: Follow SOLID principles, prefer composition over inheritance";
      "6. **Functional Features**: Use list comprehensions, generators, and simple lambdas";
      "7. **Modern Features**: Leverage dataclasses, pattern matching, async/await";
      "8. **Error Handling**: Use specific exceptions and context managers";
      "9. **Testing**: Write unit tests for all public methods";
      EmptyString;
      "For more details, use the `pystandards` CLI tool or import the `python_ai_coding_standards` package.";
      EmptyString ]).

(** The loop of [get_project_structure], ending in the fallback. *)
Fixpoint get_project_structure_scan (exs : list ExampleRecord) : result pystr :=
  match exs with
  | [] => Ok (strip project_structure_fallback)
  | example :: rest =>
    if dict_in (py "title") example then
      t <- dict_get example (py "title") ;;
      if val_eq_str t (py "Standard project layout") then
        v <- dict_get example (py "code") ;;
        Ok (strip (str_val v))
      else get_project_structure_scan rest
    else get_project_structure_scan rest
  end.

Definition get_project_structure : result pystr :=
  standard <- get_standard (py "project_structure") ;;
  get_project_structure_scan (examples standard).

(** [any(term in query_lower for term in terms)] *)
Definition any_term_in (terms : list pystr) (query_lower : pystr) : bool :=
  existsb (fun term => str_in term query_lower) terms.

(** [try: example = ...; return with_example  except ValueError: return plain] *)
Definition try_example (r : result pystr) (with_example : pystr -> pystr)
    (plain : pystr) : result pystr :=
  match r with
  | Ok example => Ok (with_example example)
  | Raise (ValueError _) => Ok plain
  | Raise e => Raise e
  end.

Definition generate_standard_response (query : pystr) : result pystr :=
  let query_lower := lower query in
  (* Project structure query *)
  if any_term_in [py "structure"; py "layout"; py "organization"] query_lower
  then
    structure <- get_project_structure ;;
    Ok (structure_response structure)
  (* Tools and configuration query *)
  else if any_term_in [py "tools"; py "toolchain"; py "configuration"; py "setup"]
                      query_lower
  then Ok toolchain_response
  (* OOP practices query *)
  else if any_term_in [py "oop"; py "class"; py "object"; py "inheritance"]
                      query_lower
  then
    try_example
      (get_example (py "oop_principles")
                   (Some (py "Single Responsibility Principle (SRP)")))
      oop_response oop_response_plain
  (* Modern Python features query *)
  else if any_term_in [py "modern"; py "features"; py "dataclass"; py "typing"]
                      query_lower
  then
    try_example
      (get_example (py "modern_features")
                   (Some (py "Type Annotations and Generics")))
      modern_response modern_response_plain
  (* Testing query *)
  else if any_term_in [py "test"; py "testing"; py "pytest"] query_lower
  then Ok testing_response
  (* Functional programming query *)
  else if any_term_in [py "functional"; py "lambda"; py "comprehension"]
                      query_lower
  then
    try_example
      (get_example (py "functional_programming") (Some (py "List Comprehensions")))
      functional_response functional_response_plain
  (* Error handling query *)
  else if any_term_in [py "error"; py "exception"; py "handling"] query_lower
  then Ok error_response
  (* Default response - general guidelines *)
  else Ok default_response.

End ai.

(* ================================================================== *)
(** ** cli.py: export_json *)
(* ================================================================== *)

Module cli.

Import api.

Local Open Scope N_scope.

Set Warnings "-register-all".

(** The JSON documents that [json.dump] writes for the exported data. *)
Inductive json : Type :=
| JStr (s : pystr)
| JList (items : list json)
| JDict (members : list (pystr * json)).

Definition json_of_val (v : pyval) : json :=
  match v with
  | VStr s => JStr s
  | VDict d => JDict (map (fun kv => (fst kv, JStr (snd kv))) d)
  end.

Definition json_of_example (e : ExampleRecord) : json :=
  JDict (map (fun kv => (fst kv, json_of_val (snd kv))) e).

(** The keys of a standard, in the order of the dict literals of
    [standards/data.py]. *)
Definition json_of_standard (s : StandardInfo) : json :=
  JDict [ (py "title", JStr (title s));
          (py "description", JStr (description s));
          (py "examples", JList (map json_of_example (examples s)));
          (py "guidelines", JList (map JStr (guidelines s))) ].

Definition hex4 (c : N) : pystr :=
  [ hex_digit (c / 4096 mod 16); hex_digit (c / 256 mod 16);
    hex_digit (c / 16 mod 16); hex_digit (c mod 16) ].

(** String escaping of [json.dump] with [ensure_ascii] left at [True]. *)
Definition json_escape_cp (c : codepoint) : pystr :=
  if c =? 34 then [92; 34]
  else if c =? 92 then [92; 92]
  else if c =? 10 then [92; 110]
  else if c =? 13 then [92; 114]
  else if c =? 9 then [92; 116]
  else if c =? 8 then [92; 98]
  else if c =? 12 then [92; 102]
  else if (32 <=? c) && (c <=? 126) then [c]
  else if c <? 0x10000 then [92; 117] ++ hex4 c
  else
    let v := c - 0x10000 in
    [92; 117] ++ hex4 (0xD800 + v / 1024)
    ++ [92; 117] ++ hex4 (0xDC00 + v mod 1024).

Definition json_string (s : pystr) : pystr :=
  [34] ++ flat_map json_escape_cp s ++ [34].

Definition newline_indent (level : nat) : pystr :=
  [10] ++ repeat 32 (2 * level).

(** [json.dumps(j, indent=2)] at nesting depth [level]. *)
Fixpoint json_dumps (level : nat) (j : json) : pystr :=
  match j with
  | JStr s => json_string s
  | JList [] => py "[]"
  | JList items =>
    py "[" ++ newline_indent (S level)
    ++ join (py "," ++ newline_indent (S level))
            (map (json_dumps (S level)) items)
    ++ newline_indent level ++ py "]"
  | JDict [] => py "{}"
  | JDict members =>
    py "{" ++ newline_indent (S level)
    ++ join (py "," ++ newline_indent (S level))
            (map (fun kv =>
                    match kv with
                    | (k, v) => json_string k ++ py ": " ++ json_dumps (S level) v
                    end)
                 members)
    ++ newline_indent level ++ py "}"
  end.

(** The [data] dict of [export_json]. *)
Record export_data : Type := {
  categories : list (pystr * pystr);
  standards : list (pystr * StandardInfo)
}.

Definition json_of_export (d : export_data) : json :=
  JDict [ (py "categories",
           JDict (map (fun kv => (fst kv, JStr (snd kv))) (categories d)));
          (py "standards",
           JDict (map (fun kv => (fst kv, json_of_standard (snd kv)))
                      (standards d))) ].

(** What [export_json] acts on: the files by path, the paths that cannot
    be opened for writing, each with the message of its [OSError], and
    the lines given to [console.print]. *)
Record world : Type := {
  files : list (pystr * pystr);
  unwritable : list (pystr * pystr);
  console : list pystr
}.

Definition console_print (line : pystr) (w : world) : world :=
  {| files := files w; unwritable := unwritable w;
     console := console w ++ [line] |}.

(** [with open(path, "w") as f: json.dump(data, f, indent=2)] *)
Definition write_json (path : pystr) (data : export_data) (w : world)
  : result world :=
  if dict_in path (unwritable w) then
    msg <- dict_get (unwritable w) path ;;
    Raise (OSError msg)
  else
    Ok {| files := dict_set (files w) path (json_dumps 0 (json_of_export data));
          unwritable := unwritable w;
          console := console w |}.

(** [isinstance(x, StandardCategory)]. [StandardCategory] is the
    subscripted [typing.Literal] of [core/api.py]; the interpreter refuses
    an instance check against it and raises [TypeError]. *)
Definition isinstance_StandardCategory (x : pystr) : result bool :=
  Raise (TypeError
           (py "Subscripted generics cannot be used with class and instance checks")).

(** The [for cat_id, _ in get_all_categories()] loop of [export_json]. *)
Fixpoint export_json_loop (cats : list (pystr * pystr)) (data : export_data)
  : result export_data :=
  match cats with
  | [] => Ok data
  | (cat_id, _) :: rest =>
    let cat_std := cat_id in
    is_cat <- isinstance_StandardCategory cat_std ;;
    let std_cat := if is_cat : bool then cat_std else py "project_structure" in
    std <- get_standard std_cat ;;
    export_json_loop rest
      {| categories := categories data;
         standards := dict_set (standards data) cat_id std |}
  end.

(** [export_json(output_path)]. An exception that leaves the function
    is raised before the file is opened, so a raised result carries no
    new world. *)
Definition export_json (output_path : pystr) (w : world) : result world :=
  let data := {| categories := dict_of get_all_categories; standards := [] |} in
  data <- export_json_loop get_all_categories data ;;
  match write_json output_path data w with
  | Ok w' =>
    Ok (console_print (py "[green]Standards exported to:[/green] " ++ output_path) w')
  | Raise (OSError e) =>
    Ok (console_print (py "[bold red]Error exporting standards:[/bold red] " ++ e) w)
  | Raise e => Raise e
  end.

End cli.

(* ================================================================== *)
(** ** The notions of the specification *)
(* ================================================================== *)

Module spec.

Import api ai.

(** [text] contains [query] without regard to case: the lowered query
    occurs inside the lowered text. *)
Definition contains_ci (query text : pystr) : Prop :=
  exists before after : pystr, lower text = before ++ lower query ++ after.

Definition matches (query text : pystr) : bool :=
  str_in (lower query) (lower text).

(** The search, as the specification words it: per category the title,
    then the description, then the guidelines in their order, then the
    examples in their order, each by the fields of its mapping in
    iteration order. *)
Definition title_match (query : pystr) (item : pystr * StandardInfo)
  : list search_result :=
  if matches query (title (snd item))
  then [(fst item, py "title", title (snd item))] else [].

Definition description_match (query : pystr) (item : pystr * StandardInfo)
  : list search_result :=
  if matches query (description (snd item))
  then [(fst item, py "description", description (snd item))] else [].

Definition guideline_matches (query : pystr) (item : pystr * StandardInfo)
  : list search_result :=
  map (fun g => (fst item, py "guideline", g))
      (filter (matches query) (guidelines (snd item))).

Definition field_match (query category : pystr) (kv : pystr * pyval)
  : list search_result :=
  match snd kv with
  | VStr value =>
    if matches query value
    then [(category, py "example." ++ fst kv, value)] else []
  | VDict _ => []
  end.

Definition example_matches (query : pystr) (item : pystr * StandardInfo)
  : list search_result :=
  flat_map (fun e : ExampleRecord => flat_map (field_match query (fst item)) e)
           (examples (snd item)).

Definition category_matches (query : pystr) (item : pystr * StandardInfo)
  : list search_result :=
  title_match query item ++ description_match query item
  ++ guideline_matches query item ++ example_matches query item.

Definition search_spec (query : pystr) : list search_result :=
  flat_map (category_matches query) _STANDARDS_MAP.

(** Every text field that the search scans, tagged as the search tags
    it. *)
Definition scanned_fields_of (item : pystr * StandardInfo) : list search_result :=
  [(fst item, py "title", title (snd item));
   (fst item, py "description", description (snd item))]
  ++ map (fun g => (fst item, py "guideline", g)) (guidelines (snd item))
  ++ flat_map
       (fun e : ExampleRecord =>
          flat_map (fun kv =>
                      match snd kv with
                      | VStr value => [(fst item, py "example." ++ fst kv, value)]
                      | VDict _ => []
                      end) e)
       (examples (snd item)).

Definition scanned_text_fields : list search_result :=
  flat_map scanned_fields_of _STANDARDS_MAP.

Definition nonempty_text (r : search_result) : bool :=
  match snd r with
  | [] => false
  | _ :: _ => true
  end.

(** The first binding of a key in an example record. *)
Fixpoint field (key : pystr) (e : ExampleRecord) : option pyval :=
  match e with
  | [] => None
  | (k, v) :: rest => if pystr_eqb k key then Some v else field key rest
  end.

(** The primary text of an example: its [code] field, else its
    [good_example] field, both without the white space around them, else
    the whole record as text. *)
Definition primary_text (e : ExampleRecord) : pystr :=
  match field (py "code") e with
  | Some v => strip (str_val v)
  | None =>
    match field (py "good_example") e with
    | Some v => strip (str_val v)
    | None => str_example e
    end
  end.

Definition has_title (t : pystr) (e : ExampleRecord) : bool :=
  match field (py "title") e with
  | Some v => val_eq_str v t
  | None => false
  end.

Definition titled (e : ExampleRecord) : bool :=
  match field (py "title") e with
  | Some _ => true
  | None => false
  end.

(** The headings of a markdown text: the lines that open with one to six
    [#] followed by white space or nothing; the text of a heading is the
    rest of its line without the white space around it. Lines inside
    code fences are not set apart, so this list holds at least every
    heading. *)
Fixpoint count_hashes (line : pystr) : nat :=
  match line with
  | 35%N :: r => S (count_hashes r)
  | _ => 0
  end.

Definition heading_text (line : pystr) : option pystr :=
  let l := lstrip line in
  let n := count_hashes l in
  let rest := skipn n l in
  if ((1 <=? n) && (n <=? 6))%nat
     && match rest with
        | [] => true
        | c :: _ => isspace c
        end
  then Some (strip rest) else None.

Definition markdown_headings (md : pystr) : list pystr :=
  flat_map (fun line => match heading_text line with
                        | Some h => [h]
                        | None => []
                        end)
           (split 10%N md).

(** The recommendations that [suggest_improvements] takes from the
    standards. *)
Definition standards_tips : list pystr :=
  map snd
      (filter (fun r : search_result => (List.length (snd r) <? 200)%nat)
              (firstn 2 (search_standards (py "best practice")))).

Definition canned_suggestions : list pystr :=
  [ msg_type_hints; msg_lambda; msg_dataclass; msg_mutable_default;
    msg_context_manager; msg_specific_exceptions ].

(** The snippet of [test_suggest_improvements] in [tests/test_ai.py]. *)
Definition test_snippet : pystr :=
  py (unlines
    [ EmptyString;
      "def process_data(items=[]):";
      "    results = []";
      "    for item in items:";
      "        try:";
      "            results.append(item * 2)";
      "        except:";
      "            pass";
      "    return results";
      EmptyString ]).

(** A function with a list as default argument, no return annotation
    and a bare [except], in which no assignment of an empty list
    follows. *)
Definition default_only_snippet : pystr :=
  py (unlines
    [ "def process_data(items=[]):";
      "    try:";
      "        return items";
      "    except:";
      "        pass";
      EmptyString ]).

End spec.

Import data api ai cli spec.

(* ================================================================== *)
(** ** core/api.py: for_ai_assistant *)
(* ================================================================== *)

Module api_summary.

Import data api.

(** The dict that [for_ai_assistant] returns, key by key. *)
Record AiSummary : Type := {
  general_guidelines : list pystr;
  project_structure : list pystr;
  python_version : pystr;
  typing : pystr;
  preferred_tools : list (pystr * pystr);
  oop_principles : list pystr;
  modern_features : list pystr
}.

(** [[str(p["title"]) for p in exs]] *)
Fixpoint example_titles (exs : list ExampleRecord) : result (list pystr) :=
  match exs with
  | [] => Ok []
  | p :: rest =>
    t <- dict_get p (py "title") ;;
    ts <- example_titles rest ;;
    Ok (str_val t :: ts)
  end.

Definition for_ai_assistant : result AiSummary :=
  oop <- example_titles (examples OOP_PRINCIPLES) ;;
  modern <- example_titles (examples MODERN_FEATURES) ;;
  Ok {| general_guidelines := guidelines AI_GUIDELINES;
        project_structure := guidelines PROJECT_STRUCTURE;
        python_version := py "3.11+";
        typing := py "Always use type hints, including PEP 695 generics";
        preferred_tools :=
          [ (py "linter", py "ruff");
            (py "type_checker", py "mypy --strict");
            (py "package_manager", py "hatch") ];
        oop_principles := oop;
        modern_features := modern |}.

End api_summary.

(* ================================================================== *)
(** ** cli.py: the search and show commands *)
(* ================================================================== *)

Module cli_commands.

Import api cli.

Local Open Scope N_scope.

(** What [console.print] is given: a string with console markup, or a
    [Panel], [Markdown], [Syntax] or [Table] object, each with the
    arguments the source constructs it from (a table with the headers of
    its columns and its rows). *)
Inductive renderable : Type :=
| Markup (text : pystr)
| Panel (markup : pystr)
| Markdown (text : pystr)
| Syntax (code lexer theme : pystr)
| Table (columns : list pystr) (rows : list (list pystr)).

(** What a command can raise: an exception of the API, or the
    [AttributeError] of a method call on a value of the wrong type. *)
Inductive cli_exn : Type :=
| ApiError (e : exn)
| AttributeError (msg : pystr).

Inductive outcome (A : Type) : Type :=
| Done (a : A)
| Failed (e : cli_exn).

Arguments Done {A} a.
Arguments Failed {A} e.

(** A command that prints: it takes what has been printed so far and
    returns its result, or the exception it raised, with what has been
    printed by then. *)
Definition io (A : Type) : Type :=
  list renderable -> outcome A * list renderable.

Definition io_ret {A : Type} (a : A) : io A :=
  fun printed => (Done a, printed).

Definition io_bind {A B : Type} (m : io A) (k : A -> io B) : io B :=
  fun printed =>
    match m printed with
    | (Done a, printed') => k a printed'
    | (Failed e, printed') => (Failed e, printed')
    end.

Definition io_lift {A : Type} (r : result A) : io A :=
  fun printed =>
    match r with
    | Ok a => (Done a, printed)
    | Raise e => (Failed (ApiError e), printed)
    end.

Definition io_fail {A : Type} (e : cli_exn) : io A :=
  fun printed => (Failed e, printed).

(** [console.print(r)] *)
Definition print (r : renderable) : io unit :=
  fun printed => (Done tt, printed ++ [r]).

Notation "x <<- m ;; k" := (io_bind m (fun x => k))
  (at level 61, m at next level, right associativity).

(** [for x in xs: body(x)] *)
Fixpoint io_for {A : Type} (xs : list A) (body : A -> io unit) : io unit :=
  match xs with
  | [] => io_ret tt
  | x :: rest => _ <<- body x ;; io_for rest body
  end.

Fixpoint uint_digits (d : Decimal.uint) : pystr :=
  match d with
  | Decimal.Nil => []
  | Decimal.D0 r => 48 :: uint_digits r
  | Decimal.D1 r => 49 :: uint_digits r
  | Decimal.D2 r => 50 :: uint_digits r
  | Decimal.D3 r => 51 :: uint_digits r
  | Decimal.D4 r => 52 :: uint_digits r
  | Decimal.D5 r => 53 :: uint_digits r
  | Decimal.D6 r => 54 :: uint_digits r
  | Decimal.D7 r => 55 :: uint_digits r
  | Decimal.D8 r => 56 :: uint_digits r
  | Decimal.D9 r => 57 :: uint_digits r
  end.

(** [str(n)] of a count. *)
Definition str_int (n : nat) : pystr := uint_digits (Nat.to_uint n).

Definition upper_cp (c : codepoint) : codepoint :=
  if (97 <=? c) && (c <=? 122) then c - 32 else c.

(** [s.capitalize()], on the ASCII letters as [lower] is. *)
Definition capitalize (s : pystr) : pystr :=
  match s with
  | [] => []
  | c :: r => upper_cp c :: lower r
  end.

(** [xs[i]] *)
Definition list_index {A : Type} (xs : list A) (i : nat) : result A :=
  match nth_error xs i with
  | Some x => Ok x
  | None => Raise (IndexError (py "list index out of range"))
  end.

(** *** search *)

(** One turn of the loop that groups the results by category. *)
Definition group_step (by_category : list (pystr * list (pystr * pystr)))
    (r : search_result) : result (list (pystr * list (pystr * pystr))) :=
  let cat := fst (fst r) in
  let field := snd (fst r) in
  let content := snd r in
  let by_category :=
    if negb (dict_in cat by_category) then dict_set by_category cat []
    else by_category in
  items <- dict_get by_category cat ;;
  Ok (dict_set by_category cat (items ++ [(field, content)])).

Fixpoint group_by_category (results : list search_result)
    (by_category : list (pystr * list (pystr * pystr)))
  : result (list (pystr * list (pystr * pystr))) :=
  match results with
  | [] => Ok by_category
  | r :: rest =>
    by_category <- group_step by_category r ;;
    group_by_category rest by_category
  end.

(** The body of [for field, content in items]. *)
Definition print_item (item : pystr * pystr) : io unit :=
  let field := fst item in
  let content := snd item in
  if pystr_eqb field (py "title") then
    print (Markup (py "[bold yellow]Title:[/bold yellow] " ++ content))
  else if pystr_eqb field (py "description") then
    print (Markup (py "[bold yellow]Description:[/bold yellow] " ++ content))
  else if startswith field (py "example.") then
    key <<- io_lift (list_index (split 46 field) 1) ;;
    _ <<- print (Markup (py "[bold yellow]Example (" ++ key
                         ++ py "):[/bold yellow]")) ;;
    if existsb (startswith (strip content)) [py "#"; py "class"; py "def"]
    then print (Syntax (strip content) (py "python") (py "monokai"))
    else print (Markup content)
  else
    print (Markup (py "[bold yellow]" ++ capitalize field
                   ++ py ":[/bold yellow] " ++ content)).

(** The body of [for cat, items in by_category.items()]. *)
Definition print_category (entry : pystr * list (pystr * pystr)) : io unit :=
  let cat := fst entry in
  let items := snd entry in
  let cat_std := cat in
  is_cat <<- io_lift (isinstance_StandardCategory cat_std) ;;
  let std_cat := if is_cat : bool then cat_std else py "project_structure" in
  std <<- io_lift (get_standard std_cat) ;;
  _ <<- print (Markup (py nl ++ py "[bold cyan]" ++ title std
                       ++ py "[/bold cyan]")) ;;
  io_for items print_item.

(** [search(query)] *)
Definition search (query : pystr) : io unit :=
  let results := search_standards query in
  match results with
  | [] =>
    print (Markup (py "[yellow]No results found for query:[/yellow] " ++ query))
  | _ :: _ =>
    _ <<- print (Markup (py "[green]Found " ++ str_int (List.length results)
                         ++ py " results for query:[/green] " ++ query)) ;;
    (* Group results by category *)
    by_category <<- io_lift (group_by_category results []) ;;
    (* Print results by category *)
    io_for by_category print_category
  end.

(** *** show_standard *)

(** [value.strip()] *)
Definition val_strip (value : pyval) : io pystr :=
  match value with
  | VStr s => io_ret (strip s)
  | VDict _ =>
    io_fail (AttributeError (py "'dict' object has no attribute 'strip'"))
  end.

(** [value.items()] *)
Definition val_items (value : pyval) : io (list (pystr * pystr)) :=
  match value with
  | VDict d => io_ret d
  | VStr _ =>
    io_fail (AttributeError (py "'str' object has no attribute 'items'"))
  end.

(** [for i, g in enumerate(gs, i): console.print(f"{i}. {g}")] *)
Fixpoint print_numbered (i : nat) (gs : list pystr) : io unit :=
  match gs with
  | [] => io_ret tt
  | g :: rest =>
    _ <<- print (Markup (str_int i ++ py ". " ++ g)) ;;
    print_numbered (S i) rest
  end.

(** The body of [for key, value in example.items()]. *)
Definition print_field (kv : pystr * pyval) : io unit :=
  let key := fst kv in
  let value := snd kv in
  if pystr_eqb key (py "title") then io_ret tt
  else if existsb (pystr_eqb key)
                  [py "code"; py "good_example"; py "bad_example"] then
    stripped <<- val_strip value ;;
    match stripped with
    | [] => io_ret tt
    | _ :: _ => print (Syntax stripped (py "python") (py "monokai"))
    end
  else if pystr_eqb key (py "commands") then
    cmds <<- val_items value ;;
    print (Table [py "Task"; py "Command"]
                 (map (fun cmd => [fst cmd; snd cmd]) cmds))
  else print (Markup (key ++ py ": " ++ str_val value)).

(** The body of [for example in standard["examples"]]. *)
Definition print_example (example : ExampleRecord) : io unit :=
  t <<- io_lift (dict_get example (py "title")) ;;
  _ <<- print (Markup (py nl ++ py "[bold yellow]" ++ str_val t
                       ++ py "[/bold yellow]")) ;;
  io_for example print_field.

(** [show_standard(category)] *)
Definition show_standard (category : pystr) : io unit :=
  match get_standard category with
  | Raise (ValueError msg) =>
    print (Markup (py "[bold red]Error:[/bold red] " ++ msg))
  | Raise e => io_fail (ApiError e)
  | Ok standard =>
    _ <<- print (Panel (py "[bold cyan]" ++ title standard ++ py "[/bold cyan]")) ;;
    _ <<- print (Markdown (description standard)) ;;
    (* Print guidelines *)
    _ <<- print (Markup (py nl ++ py "[bold green]Guidelines:[/bold green]")) ;;
    _ <<- print_numbered 1 (guidelines standard) ;;
    (* Print examples *)
    match examples standard with
    | [] => io_ret tt
    | _ :: _ =>
      _ <<- print (Markup (py nl ++ py "[bold green]Examples:[/bold green]")) ;;
      io_for (examples standard) print_example
    end
  end.

End cli_commands.

(* ================================================================== *)
(** ** Further notions for the properties below *)
(* ================================================================== *)

Module notions.

Import api ai spec cli_commands.

(** The number of lines of a snippet that hold both [self.] and [ = ]. *)
Definition init_assignment_lines (code_snippet : pystr) : nat :=
  List.length
    (filter (fun line => str_in (py "self.") line && str_in (py " = ") line)
            (split 10%N code_snippet)).

(** The three templates that [generate_standard_response] keeps for the
    case that an example cannot be fetched. *)
Definition plain_responses : list pystr :=
  [ oop_response_plain; modern_response_plain; functional_response_plain ].

Fixpoint nodupb (l : list pystr) : bool :=
  match l with
  | [] => true
  | x :: r => negb (existsb (pystr_eqb x) r) && nodupb r
  end.

(** An example whose primary text is not empty and has no white space
    at either end. *)
Definition trimmed_text (e : ExampleRecord) : bool :=
  negb (pystr_eqb (primary_text e) [])
  && pystr_eqb (strip (primary_text e)) (primary_text e).

(** The lines [i. g] for the guidelines [gs], numbered from [i]. *)
Fixpoint numbered (i : nat) (gs : list pystr) : list renderable :=
  match gs with
  | [] => []
  | g :: rest => Markup (str_int i ++ py ". " ++ g) :: numbered (S i) rest
  end.

(** A command only adds to what has been printed. *)
Definition appends {A : Type} (m : io A) : Prop :=
  forall printed : list renderable,
    m printed = (fst (m []), printed ++ snd (m [])).

(** The tag of a search result names a scanned field. *)
Definition field_tag_ok (tag : pystr) : bool :=
  pystr_eqb tag (py "title") || pystr_eqb tag (py "description")
  || pystr_eqb tag (py "guideline") || startswith tag (py "example.").

End notions.

Import api_summary cli_commands notions.

(* ================================================================== *)
(** ** Strings and dicts *)
(* ================================================================== *)

Lemma pystr_eqb_eq (a b : pystr) : pystr_eqb a b = true <-> a = b.
Proof.
  unfold pystr_eqb. destruct (list_eq_dec N.eq_dec a b); split; congruence.
Qed.

Lemma pystr_eqb_refl (a : pystr) : pystr_eqb a a = true.
Proof. now apply pystr_eqb_eq. Qed.

Lemma startswith_spec (prefix s : pystr) :
  startswith s prefix = true <-> exists rest, s = prefix ++ rest.
Proof.
  revert s. induction prefix as [|a p IH]; intros s.
  - split; [intros _; now exists s | intros _; now destruct s].
  - destruct s as [|b s]; simpl.
    + split; [discriminate | intros [rest H]; discriminate].
    + rewrite andb_true_iff, N.eqb_eq, IH. split.
      * intros [-> [rest ->]]. now exists rest.
      * intros [rest H]. injection H as -> ->. split; [reflexivity | now exists rest].
Qed.

Lemma str_in_spec (needle hay : pystr) :
  str_in needle hay = true <-> exists before after, hay = before ++ needle ++ after.
Proof.
  induction hay as [|c r IH].
  - cbn [str_in]. rewrite orb_false_r, startswith_spec. split.
    + intros [rest H]. now exists [], rest.
    + intros [before [after H]]. destruct before; [now exists after | discriminate].
  - cbn [str_in]. rewrite orb_true_iff, startswith_spec, IH. split.
    + intros [[rest H] | [before [after H]]].
      * now exists [], rest.
      * exists (c :: before), after. now rewrite H.
    + intros [before [after H]]. destruct before as [|b before].
      * left. now exists after.
      * right. injection H as _ H. now exists before, after.
Qed.

Lemma str_in_nil (hay : pystr) : str_in [] hay = true.
Proof. apply str_in_spec. now exists [], hay. Qed.

Lemma str_in_trans (a b c : pystr) :
  str_in a b = true -> str_in b c = true -> str_in a c = true.
Proof.
  rewrite !str_in_spec. intros [p1 [q1 ->]] [p2 [q2 ->]].
  exists (p2 ++ p1), (q1 ++ q2). now rewrite <- !app_assoc.
Qed.

Lemma matches_contains_ci (query text : pystr) :
  matches query text = true <-> contains_ci query text.
Proof. apply str_in_spec. Qed.

Lemma dict_in_spec {V : Type} (key : pystr) (d : list (pystr * V)) :
  dict_in key d = true <-> In key (map fst d).
Proof.
  unfold dict_in. rewrite existsb_exists, in_map_iff. split.
  - intros [kv [Hin Heq]]. apply pystr_eqb_eq in Heq. now exists kv.
  - intros [kv [Heq Hin]]. exists kv. split; [assumption | now apply pystr_eqb_eq].
Qed.

Lemma dict_in_field (key : pystr) (e : ExampleRecord) :
  dict_in key e = match field key e with Some _ => true | None => false end.
Proof.
  induction e as [|[k v] rest IH]; [reflexivity|].
  unfold dict_in in *. simpl. destruct (pystr_eqb k key); [reflexivity | exact IH].
Qed.

Lemma dict_get_field (key : pystr) (e : ExampleRecord) :
  dict_get e key = match field key e with
                   | Some v => Ok v
                   | None => Raise (KeyError key)
                   end.
Proof.
  induction e as [|[k v] rest IH]; [reflexivity|].
  simpl. destruct (pystr_eqb k key); [reflexivity | exact IH].
Qed.

(* ================================================================== *)
(** ** Loops that append *)
(* ================================================================== *)

Lemma fold_left_append {A B : Type} (step : list B -> A -> list B)
    (found : A -> list B) (xs : list A) :
  (forall acc x, step acc x = acc ++ found x) ->
  forall acc, fold_left step xs acc = acc ++ flat_map found xs.
Proof.
  intros Hstep. induction xs as [|x xs IH]; intros acc; simpl.
  - now rewrite app_nil_r.
  - now rewrite IH, Hstep, <- app_assoc.
Qed.

Lemma flat_map_filter_map {A B : Type} (keep : A -> bool) (f : A -> B)
    (xs : list A) :
  flat_map (fun x => if keep x then [f x] else []) xs = map f (filter keep xs).
Proof.
  induction xs as [|x xs IH]; [reflexivity|].
  simpl. destruct (keep x); simpl; now rewrite IH.
Qed.

Lemma search_category_spec (query : pystr) (results : list search_result)
    (item : pystr * StandardInfo) :
  search_category (lower query) results item
  = results ++ category_matches query item.
Proof.
  unfold search_category, category_matches.
  rewrite (fold_left_append _
             (fun e : ExampleRecord => flat_map (field_match query (fst item)) e)).
  2:{ intros acc e. apply fold_left_append. intros acc' [k [value|d]].
      all: unfold field_match, matches; cbn [fst snd].
      - destruct (str_in (lower query) (lower value)); [reflexivity | now rewrite app_nil_r].
      - now rewrite app_nil_r. }
  rewrite (fold_left_append _
             (fun g => if matches query g then [(fst item, py "guideline", g)] else [])).
  2:{ intros acc g. unfold matches.
      destruct (str_in (lower query) (lower g)); [reflexivity | now rewrite app_nil_r]. }
  rewrite flat_map_filter_map.
  unfold title_match, description_match, guideline_matches, example_matches, matches.
  destruct (str_in (lower query) (lower (title (snd item))));
    destruct (str_in (lower query) (lower (description (snd item))));
    rewrite <- ?app_assoc; reflexivity.
Qed.

Lemma search_standards_spec (query : pystr) :
  search_standards query = search_spec query.
Proof.
  unfold search_standards, search_spec.
  now rewrite (fold_left_append _ (category_matches query))
    by (intros; apply search_category_spec).
Qed.

Lemma category_matches_contain (query : pystr) (item : pystr * StandardInfo) :
  Forall (fun r : search_result => contains_ci query (snd r))
         (category_matches query item).
Proof.
  unfold category_matches. rewrite !Forall_app. repeat split.
  - unfold title_match. destruct (matches query _) eqn:E; [|constructor].
    constructor; [now apply matches_contains_ci | constructor].
  - unfold description_match. destruct (matches query _) eqn:E; [|constructor].
    constructor; [now apply matches_contains_ci | constructor].
  - unfold guideline_matches. apply Forall_map, Forall_forall.
    intros g Hg. apply filter_In in Hg. now apply matches_contains_ci.
  - unfold example_matches. apply Forall_flat_map, Forall_forall. intros e _.
    apply Forall_flat_map, Forall_forall.
    intros [k [value|d]] _; unfold field_match; cbn [fst snd]; [|constructor].
    destruct (matches query value) eqn:E; [|constructor].
    constructor; [now apply matches_contains_ci | constructor].
Qed.

(* ================================================================== *)
(** ** The lookup API *)
(* ================================================================== *)

Lemma _STANDARDS_MAP_keys : map fst _STANDARDS_MAP = StandardCategory.
Proof. reflexivity. Qed.

(** C1. [get_standard] on an identifier outside the closed set of twelve
    category identifiers raises [ValueError], the not-found failure, with
    a message that names the identifier; it returns no data. *)
Theorem get_standard_unknown :
  List.length StandardCategory = 12
  /\ forall id : pystr,
       ~ In id StandardCategory ->
       get_standard id
       = Raise (ValueError (py "Unknown standard category: " ++ id)).
Proof.
  split; [reflexivity|]. intros id Hout. unfold get_standard.
  destruct (dict_in id _STANDARDS_MAP) eqn:E; [|reflexivity].
  apply dict_in_spec in E. rewrite _STANDARDS_MAP_keys in E. contradiction.
Qed.

Lemma get_standard_unknown_witness :
  ~ In (py "invalid_category") StandardCategory
  /\ get_standard (py "invalid_category")
     = Raise (ValueError (py "Unknown standard category: " ++ py "invalid_category")).
Proof.
  assert (Hout : ~ In (py "invalid_category") StandardCategory).
  { intros H. vm_compute in H. repeat destruct H as [H|H]; try discriminate H. exact H. }
  split; [exact Hout | exact (proj2 get_standard_unknown _ Hout)].
Defined.

(** C8. For every identifier of the closed set, [get_standard] returns a
    record whose title, description and list of guidelines are all
    non-empty. *)
Theorem get_standard_known (id : pystr) :
  In id StandardCategory ->
  exists standard : StandardInfo,
    get_standard id = Ok standard
    /\ title standard <> []
    /\ description standard <> []
    /\ guidelines standard <> [].
Proof.
  intros Hin. unfold StandardCategory in Hin. cbn [In] in Hin.
  repeat destruct Hin as [Hin|Hin]; try contradiction; subst id.
  all: eexists; split; [vm_compute; reflexivity|]; repeat split; discriminate.
Qed.

Lemma get_standard_known_witness :
  In (py "testing") StandardCategory
  /\ exists standard : StandardInfo,
       get_standard (py "testing") = Ok standard
       /\ title standard <> []
       /\ description standard <> []
       /\ guidelines standard <> [].
Proof.
  assert (Hin : In (py "testing") StandardCategory).
  { unfold StandardCategory. cbn [In]. do 8 right. left. reflexivity. }
  split; [exact Hin | exact (get_standard_known _ Hin)].
Defined.

(* ================================================================== *)
(** ** Search *)
(* ================================================================== *)



Lemma scanned_fields_empty_query (item : pystr * StandardInfo) :
  category_matches [] item = scanned_fields_of item.
Proof.
  unfold category_matches, scanned_fields_of, title_match, description_match,
    guideline_matches, example_matches, field_match, matches.
  change (lower []) with (@nil codepoint).
  rewrite !str_in_nil. cbn [app]. do 2 f_equal. f_equal.
  - f_equal. induction (guidelines (snd item)) as [|g gs IH]; [reflexivity|].
    simpl. now rewrite str_in_nil, IH.
  - apply flat_map_ext. intros e. apply flat_map_ext. intros [k [value|d]]; cbn [snd fst].
    + now rewrite str_in_nil.
    + reflexivity.
Qed.

(** C6. For the empty query, [search_standards] reports exactly the
    scanned text fields that are non-empty text: every title, every
    description, every guideline and every string-valued example field
    of the content store, in scan order; the store holds no empty text,
    so none is left out. *)
Theorem search_standards_empty_query :
  search_standards [] = filter nonempty_text scanned_text_fields
  /\ search_standards (py EmptyString) = search_standards []
  /\ forallb nonempty_text scanned_text_fields = true.
Proof.
  assert (Hall : forallb nonempty_text scanned_text_fields = true)
    by (vm_compute; reflexivity).
  split; [|split; [reflexivity | exact Hall]].
  rewrite search_standards_spec. unfold search_spec, scanned_text_fields.
  rewrite (flat_map_ext _ _ scanned_fields_empty_query).
  fold scanned_text_fields. symmetry.
  rewrite forallb_forall in Hall.
  induction scanned_text_fields as [|r rs IH]; [reflexivity|].
  simpl. rewrite (Hall r (or_introl eq_refl)). f_equal.
  apply IH. intros x Hx. apply Hall. now right.
Qed.

(* ================================================================== *)
(** ** Example retrieval *)
(* ================================================================== *)

Lemma example_text_spec (e : ExampleRecord) :
  example_text e = Ok (primary_text e).
Proof.
  unfold example_text, primary_text.
  rewrite !dict_in_field, !dict_get_field.
  destruct (field (py "code") e); [reflexivity|].
  destruct (field (py "good_example") e); reflexivity.
Qed.

Lemma get_example_scan_spec (category t : pystr) (exs : list ExampleRecord) :
  forallb titled exs = true ->
  get_example_scan category t exs
  = match find (has_title t) exs with
    | Some e => Ok (primary_text e)
    | None =>
      Raise (ValueError (py "Example '" ++ t
                         ++ py "' not found in category: " ++ category))
    end.
Proof.
  induction exs as [|e rest IH]; intros Htitled; [reflexivity|].
  cbn [forallb] in Htitled. apply andb_true_iff in Htitled as [He Hrest].
  cbn [get_example_scan find]. rewrite dict_get_field.
  unfold titled in He. unfold has_title.
  destruct (field (py "title") e) as [v|]; [|discriminate].
  cbn [bind]. destruct (val_eq_str v t).
  - apply example_text_spec.
  - now apply IH.
Qed.

Lemma dict_get_In {V : Type} (d : list (pystr * V)) (key : pystr) (v : V) :
  dict_get d key = Ok v -> In (key, v) d.
Proof.
  induction d as [|[k w] rest IH]; [discriminate|].
  cbn [dict_get]. destruct (pystr_eqb k key) eqn:E.
  - intros H. injection H as ->. apply pystr_eqb_eq in E. subst. now left.
  - intros H. right. now apply IH.
Qed.

Lemma _STANDARDS_MAP_titled (category : pystr) (standard : StandardInfo) :
  get_standard category = Ok standard ->
  forallb titled (examples standard) = true.
Proof.
  unfold get_standard. destruct (negb _); [discriminate|]. intros H.
  apply dict_get_In in H.
  assert (Hall : forallb (fun item => forallb titled (examples (snd item)))
                         _STANDARDS_MAP = true) by (vm_compute; reflexivity).
  rewrite forallb_forall in Hall. exact (Hall _ H).
Qed.

(** C3, as the code has it. [get_example] raises what [get_standard]
    raises for an unknown category and raises [ValueError] for a category
    without examples, with or without a title. With a non-empty title the
    examples are scanned in order for the first one whose title equals
    it; that example's primary text is returned, and [ValueError] is
    raised when there is none. Without a title, or with the empty string
    as title, the primary text of the first example is returned. The
    primary text is the [code] field, else the [good_example] field, in
    both cases without the white space around it, else the whole record
    as text. *)
Theorem get_example_spec (category : pystr) (example_title : option pystr) :
  get_example category example_title
  = match get_standard category with
    | Raise e => Raise e
    | Ok standard =>
      match examples standard with
      | [] =>
        Raise (ValueError (py "No examples available for category: " ++ category))
      | first :: _ =>
        match example_title with
        | Some (c :: s) =>
          match find (has_title (c :: s)) (examples standard) with
          | Some e => Ok (primary_text e)
          | None =>
            Raise (ValueError (py "Example '" ++ (c :: s)
                               ++ py "' not found in category: " ++ category))
          end
        | Some [] | None => Ok (primary_text first)
        end
      end
    end.
Proof.
  unfold get_example.
  destruct (get_standard category) as [standard|e] eqn:Hstd; [|reflexivity].
  cbn [bind]. pose proof (_STANDARDS_MAP_titled _ _ Hstd) as Htitled.
  destruct (examples standard) as [|first rest]; [reflexivity|].
  destruct example_title as [[|c s]|].
  - cbn [list_first bind]. apply example_text_spec.
  - now apply get_example_scan_spec.
  - cbn [list_first bind]. apply example_text_spec.
Qed.

(** C3, where the claim fails. No example of [design_patterns] has the
    empty title, yet [get_example] with the empty title raises nothing
    and returns the text of the first example; and the text returned
    without a title is not the [code] field itself, which opens with a
    line feed. *)
Lemma get_example_counterexample :
  get_standard (py "design_patterns") = Ok DESIGN_PATTERNS
  /\ existsb (has_title []) (examples DESIGN_PATTERNS) = false
  /\ get_example (py "design_patterns") (Some [])
     = Ok (primary_text (hd [] (examples DESIGN_PATTERNS)))
  /\ match field (py "code") (hd [] (examples DESIGN_PATTERNS)) with
     | Some (VStr raw) =>
       get_example (py "design_patterns") None = Ok (strip raw)
       /\ strip raw <> raw
     | _ => False
     end.
Proof.
  split; [reflexivity|]. split; [reflexivity|]. split; [reflexivity|].
  vm_compute. split; [reflexivity | discriminate].
Qed.

(* ================================================================== *)
(** ** Suggestions *)
(* ================================================================== *)

Lemma suggest_improvements_split (code_snippet : pystr) :
  suggest_improvements code_snippet
  = heuristic_suggestions code_snippet ++ standards_tips.
Proof.
  unfold suggest_improvements, standards_tips.
  generalize (heuristic_suggestions code_snippet) as suggestions.
  generalize (search_standards (py "best practice")) as standards_results.
  intros standards_results suggestions.
  destruct standards_results as [|r rs]; [now rewrite app_nil_r|].
  rewrite <- flat_map_filter_map. apply fold_left_append.
  intros acc x. cbv beta. destruct (_ <? _)%nat; [reflexivity | now rewrite app_nil_r].
Qed.

Lemma standards_tips_unfold :
  standards_tips
  = map snd
        (filter (fun r : search_result => (List.length (snd r) <? 200)%nat)
                (firstn 2 (search_standards (py "best practice")))).
Proof. vm_compute. reflexivity. Qed.

Lemma standards_tips_value :
  standards_tips
  = [ py "Best practices for OOP in Python";
      py "Best practices for handling errors and resources" ].
Proof. vm_compute. reflexivity. Qed.

Ltac split_conditions :=
  cbv zeta;
  repeat match goal with
         | |- context [if ?c then _ else _] =>
           first [is_constructor c; fail 2 | destruct c; cbv iota]
         end.

Ltac in_list :=
  cbn [In];
  repeat match goal with
         | |- ?a = ?b \/ _ => first [constr_eq a b; left; reflexivity | right]
         | |- ?a = ?b => constr_eq a b; reflexivity
         end.

Lemma heuristic_suggestions_canned (code_snippet : pystr) :
  Forall (fun m => In m canned_suggestions) (heuristic_suggestions code_snippet).
Proof.
  unfold heuristic_suggestions, canned_suggestions. split_conditions.
  all: cbn [app]; repeat (apply Forall_cons; [in_list|]); apply Forall_nil.
Qed.

(** C10. Whatever the snippet, [suggest_improvements] returns the
    suggestions of its six pattern checks followed by the
    recommendations from the standards: the contents shorter than 200
    code points among the first two results of the search for
    [best practice]. Over the content store these are two strings, so the
    list is never empty, and a snippet that triggers no check gets
    exactly these two. *)
Theorem suggest_improvements_standards_tips (code_snippet : pystr) :
  suggest_improvements code_snippet
  = heuristic_suggestions code_snippet
    ++ map snd
         (filter (fun r : search_result => (List.length (snd r) <? 200)%nat)
                 (firstn 2 (search_standards (py "best practice"))))
  /\ Forall (fun m => In m canned_suggestions)
            (heuristic_suggestions code_snippet)
  /\ standards_tips
     = [ py "Best practices for OOP in Python";
         py "Best practices for handling errors and resources" ]
  /\ suggest_improvements [] = standards_tips
  /\ suggest_improvements code_snippet <> [].
Proof.
  split.
  { rewrite <- standards_tips_unfold. apply suggest_improvements_split. }
  split; [apply heuristic_suggestions_canned|].
  split; [apply standards_tips_value|].
  split.
  { rewrite suggest_improvements_split.
    assert (Hnone : heuristic_suggestions [] = []) by (vm_compute; reflexivity).
    rewrite Hnone. exact (app_nil_l _). }
  rewrite suggest_improvements_split, standards_tips_value.
  intros H. apply app_eq_nil in H as [_ H]. discriminate H.
Qed.

Lemma msg_distinct :
  msg_type_hints <> msg_mutable_default
  /\ msg_type_hints <> msg_specific_exceptions
  /\ msg_mutable_default <> msg_specific_exceptions.
Proof. repeat split; intros H; vm_compute in H; discriminate H. Qed.

Lemma msg_topics :
  str_in (py "type hints") (lower msg_type_hints) = true
  /\ str_in (py "mutable default") (lower msg_mutable_default) = true
  /\ str_in (py "specific exceptions") (lower msg_specific_exceptions) = true.
Proof. repeat split; vm_compute; reflexivity. Qed.

(** C4, as the code has it. The checks are on the text alone. For
    every snippet that contains [def ] and no [) ->], contains [ = []],
    and contains [except:] or [except Exception:], the result holds the
    suggestion on type hints, the one on mutable default arguments and
    the one on specific exceptions; these are three different strings,
    so the result has at least three entries. *)
Theorem suggest_improvements_patterns (code_snippet : pystr) :
  str_in (py "def ") code_snippet = true ->
  str_in (py ") ->") code_snippet = false ->
  str_in (py " = []") code_snippet = true ->
  str_in (py "except:") code_snippet = true
  \/ str_in (py "except Exception:") code_snippet = true ->
  (In msg_type_hints (suggest_improvements code_snippet)
   /\ In msg_mutable_default (suggest_improvements code_snippet)
   /\ In msg_specific_exceptions (suggest_improvements code_snippet))
  /\ (msg_type_hints <> msg_mutable_default
      /\ msg_type_hints <> msg_specific_exceptions
      /\ msg_mutable_default <> msg_specific_exceptions)
  /\ 3 <= List.length (suggest_improvements code_snippet)
  /\ (str_in (py "type hints") (lower msg_type_hints) = true
      /\ str_in (py "mutable default") (lower msg_mutable_default) = true
      /\ str_in (py "specific exceptions") (lower msg_specific_exceptions) = true).
Proof.
  intros Hdef Harrow Hassign Hexcept.
  assert (Hlist : str_in (py "[]") code_snippet = true).
  { apply (str_in_trans _ (py " = []")); [vm_compute; reflexivity | exact Hassign]. }
  assert (Hexc : str_in (py "except:") code_snippet
                 || str_in (py "except Exception:") code_snippet = true).
  { apply orb_true_iff. exact Hexcept. }
  split; [|split; [exact msg_distinct | split; [|exact msg_topics]]].
  - rewrite suggest_improvements_split. rewrite !in_app_iff.
    unfold heuristic_suggestions. rewrite Hdef, Harrow, Hassign, Hlist, Hexc.
    cbn [andb negb]. split_conditions.
    all: cbn [app]; repeat split; left; in_list.
  - rewrite suggest_improvements_split, length_app.
    unfold heuristic_suggestions. rewrite Hdef, Harrow, Hassign, Hlist, Hexc.
    cbn [andb negb]. split_conditions.
    all: cbn [app List.length]; lia.
Qed.

Lemma suggest_improvements_patterns_witness :
  (In msg_type_hints (suggest_improvements test_snippet)
   /\ In msg_mutable_default (suggest_improvements test_snippet)
   /\ In msg_specific_exceptions (suggest_improvements test_snippet))
  /\ (msg_type_hints <> msg_mutable_default
      /\ msg_type_hints <> msg_specific_exceptions
      /\ msg_mutable_default <> msg_specific_exceptions)
  /\ 3 <= List.length (suggest_improvements test_snippet)
  /\ (str_in (py "type hints") (lower msg_type_hints) = true
      /\ str_in (py "mutable default") (lower msg_mutable_default) = true
      /\ str_in (py "specific exceptions") (lower msg_specific_exceptions) = true).
Proof.
  apply (suggest_improvements_patterns test_snippet).
  - vm_compute. reflexivity.
  - vm_compute. reflexivity.
  - vm_compute. reflexivity.
  - left. vm_compute. reflexivity.
Defined.

(** C4, where the claim fails. [default_only_snippet] defines a function
    with the list default [items=[]], without return annotation, and
    catches with a bare [except]; the result has no suggestion on mutable
    default arguments. *)
Lemma suggest_improvements_counterexample :
  str_in (py "def process_data(items=[]):") default_only_snippet = true
  /\ str_in (py "except:") default_only_snippet = true
  /\ str_in (py "->") default_only_snippet = false
  /\ suggest_improvements default_only_snippet
     = [ msg_type_hints; msg_specific_exceptions;
         py "Best practices for OOP in Python";
         py "Best practices for handling errors and resources" ]
  /\ existsb (fun m => str_in (py "mutable default") (lower m))
             (suggest_improvements default_only_snippet) = false.
Proof. repeat split; vm_compute; reflexivity. Qed.

(* ================================================================== *)
(** ** The response templater *)
(* ================================================================== *)

(** C5, as the code has it. The response to [project structure] has one
    heading, [Recommended Project Structure]; the text
    [Project Structure] occurs inside that heading, in this case, and
    the response contains [src-layout]. *)
Theorem generate_standard_response_project_structure :
  exists out : pystr,
    generate_standard_response (py "project structure") = Ok out
    /\ markdown_headings out = [py "Recommended Project Structure"]
    /\ str_in (py "Project Structure") (py "Recommended Project Structure") = true
    /\ str_in (py "src-layout") out = true.
Proof.
  eexists. split; [vm_compute; reflexivity|].
  repeat split; vm_compute; reflexivity.
Qed.

(** C5, where the claim fails: no heading of the response is literally
    [Project Structure]. *)
Lemma generate_standard_response_counterexample :
  ~ exists out : pystr,
      generate_standard_response (py "project structure") = Ok out
      /\ In (py "Project Structure") (markdown_headings out)
      /\ str_in (py "src-layout") out = true.
Proof.
  intros [out [Hout [Hin _]]].
  vm_compute in Hout. injection Hout as <-.
  vm_compute in Hin. destruct Hin as [Hin|[]]. discriminate Hin.
Qed.

(* ================================================================== *)
(** ** The JSON export *)
(* ================================================================== *)

(** C9. [export_json] never reaches the file: the first turn of its loop
    checks the identifier against the [Literal] type with [isinstance],
    which raises [TypeError], so for every path and every state of the
    files nothing is written and nothing can be read back. The mapping
    it had built for the [categories] field is the one of
    [get_all_categories], in the declaration order of the identifiers. *)
Theorem export_json_raises :
  (forall (output_path : pystr) (w : world),
      export_json output_path w
      = Raise (TypeError
                 (py "Subscripted generics cannot be used with class and instance checks")))
  /\ dict_of get_all_categories = get_all_categories
  /\ map fst get_all_categories = StandardCategory.
Proof.
  split; [intros; reflexivity|]. split; vm_compute; reflexivity.
Qed.

(* ================================================================== *)
(** ** Further properties of the search and of the lookup *)
(* ================================================================== *)

Lemma filter_flat_map {A B : Type} (keep : B -> bool) (f : A -> list B)
    (xs : list A) :
  filter keep (flat_map f xs) = flat_map (fun x => filter keep (f x)) xs.
Proof.
  induction xs as [|x xs IH]; [reflexivity|].
  cbn [flat_map]. now rewrite filter_app, IH.
Qed.

Lemma filter_map_swap {A B : Type} (keep : B -> bool) (f : A -> B)
    (xs : list A) :
  filter keep (map f xs) = map f (filter (fun x => keep (f x)) xs).
Proof.
  induction xs as [|x xs IH]; [reflexivity|].
  cbn [map filter]. destruct (keep (f x)); cbn [map]; now rewrite IH.
Qed.

Lemma filter_narrow {A : Type} (f g : A -> bool) (xs : list A) :
  (forall x, f x = true -> g x = true) ->
  filter f (filter g xs) = filter f xs.
Proof.
  intros Hfg. induction xs as [|x xs IH]; [reflexivity|].
  cbn [filter]. destruct (g x) eqn:Eg.
  - cbn [filter]. now rewrite IH.
  - destruct (f x) eqn:Ef; [|exact IH].
    apply Hfg in Ef. congruence.
Qed.

Lemma category_matches_filter (query : pystr) (item : pystr * StandardInfo) :
  category_matches query item
  = filter (fun r : search_result => matches query (snd r))
           (scanned_fields_of item).
Proof.
  unfold category_matches, scanned_fields_of.
  rewrite !filter_app, filter_map_swap, filter_flat_map.
  unfold title_match, description_match, guideline_matches, example_matches.
  cbn [filter snd app].
  assert (Hfields :
    flat_map (fun e : ExampleRecord => flat_map (field_match query (fst item)) e)
             (examples (snd item))
    = flat_map
        (fun e : ExampleRecord =>
           filter (fun r : search_result => matches query (snd r))
                  (flat_map (fun kv =>
                               match snd kv with
                               | VStr value =>
                                 [(fst item, py "example." ++ fst kv, value)]
                               | VDict _ => []
                               end) e))
        (examples (snd item))).
  { apply flat_map_ext. intros e. rewrite filter_flat_map.
    apply flat_map_ext. intros [k [value|d]]; unfold field_match; cbn [fst snd filter].
    - now destruct (matches query value).
    - reflexivity. }
  rewrite Hfields.
  destruct (matches query (title (snd item)));
    destruct (matches query (description (snd item))); reflexivity.
Qed.

Lemma search_standards_all : search_standards [] = scanned_text_fields.
Proof.
  rewrite search_standards_spec. unfold search_spec, scanned_text_fields.
  apply flat_map_ext, scanned_fields_empty_query.
Qed.

Lemma search_standards_filter (query : pystr) :
  search_standards query
  = filter (fun r : search_result => matches query (snd r)) scanned_text_fields.
Proof.
  rewrite search_standards_spec. unfold search_spec, scanned_text_fields.
  rewrite filter_flat_map. apply flat_map_ext. intros item.
  apply category_matches_filter.
Qed.




Lemma _STANDARDS_MAP_lookup (item : pystr * StandardInfo) :
  In item _STANDARDS_MAP -> get_standard (fst item) = Ok (snd item).
Proof.
  intros Hin. unfold _STANDARDS_MAP in Hin. cbn [In] in Hin.
  repeat destruct Hin as [Hin|Hin]; try contradiction; subst item.
  all: vm_compute; reflexivity.
Qed.

Lemma get_standard_In (category : pystr) (standard : StandardInfo) :
  get_standard category = Ok standard -> In (category, standard) _STANDARDS_MAP.
Proof.
  unfold get_standard. destruct (negb _); [discriminate|]. apply dict_get_In.
Qed.

Lemma scanned_fields_of_tagged (item : pystr * StandardInfo) (r : search_result) :
  In r (scanned_fields_of item) ->
  fst (fst r) = fst item /\ field_tag_ok (snd (fst r)) = true.
Proof.
  unfold scanned_fields_of. rewrite !in_app_iff. intros [H|[H|H]].
  - cbn [In] in H. destruct H as [<-|[<-|[]]]; split; try reflexivity.
    all: vm_compute; reflexivity.
  - apply in_map_iff in H as [g [<- _]]. split; [reflexivity|].
    vm_compute. reflexivity.
  - apply in_flat_map in H as [e [_ H]].
    apply in_flat_map in H as [[k [value|d]] [_ H]]; cbn [snd fst In] in H.
    + destruct H as [<-|[]]. split; [reflexivity|]. cbn [fst snd].
      unfold field_tag_ok.
      assert (Hpre : startswith (py "example." ++ k) (py "example.") = true)
        by (apply startswith_spec; now exists k).
      rewrite Hpre. now rewrite !orb_true_r.
    + contradiction.
Qed.



Lemma nodupb_NoDup (l : list pystr) : nodupb l = true -> NoDup l.
Proof.
  induction l as [|x l IH]; intros Hb; [constructor|].
  cbn [nodupb] in Hb. apply andb_true_iff in Hb as [Hx Hl].
  constructor; [|now apply IH].
  intros Hin. apply negb_true_iff in Hx.
  assert (Hex : existsb (pystr_eqb x) l = true).
  { apply existsb_exists. exists x. split; [exact Hin | apply pystr_eqb_refl]. }
  congruence.
Qed.

(** X4. The listing and the lookup agree: [(id, t)] is an entry of
    [get_all_categories] exactly when [get_standard id] returns a record
    whose title is [t]; and no identifier is listed twice. *)
Theorem get_all_categories_lookup (id t : pystr) :
  (In (id, t) get_all_categories
   <-> exists standard : StandardInfo,
         get_standard id = Ok standard /\ title standard = t)
  /\ NoDup (map fst get_all_categories).
Proof.
  split.
  - unfold get_all_categories. rewrite in_map_iff. split.
    + intros [item [Heq Hin]]. injection Heq as <- <-.
      exists (snd item). split; [now apply _STANDARDS_MAP_lookup | reflexivity].
    + intros [standard [Hget <-]]. exists (id, standard).
      split; [reflexivity | now apply get_standard_In].
  - apply nodupb_NoDup. vm_compute. reflexivity.
Qed.

(* ================================================================== *)
(** ** Further properties of the example retrieval *)
(* ================================================================== *)

(** The outcome of [get_example], case by case. *)
Lemma get_example_cases (category : pystr) (example_title : option pystr) :
  get_example category example_title
  = match get_standard category with
    | Raise e => Raise e
    | Ok standard =>
      match examples standard with
      | [] =>
        Raise (ValueError (py "No examples available for category: " ++ category))
      | first :: _ =>
        match example_title with
        | Some (c :: s) =>
          match find (has_title (c :: s)) (examples standard) with
          | Some e => Ok (primary_text e)
          | None =>
            Raise (ValueError (py "Example '" ++ (c :: s)
                               ++ py "' not found in category: " ++ category))
          end
        | Some [] | None => Ok (primary_text first)
        end
      end
    end.
Proof.
  unfold get_example.
  destruct (get_standard category) as [standard|e] eqn:Hstd; [|reflexivity].
  cbn [bind]. pose proof (_STANDARDS_MAP_titled _ _ Hstd) as Htitled.
  destruct (examples standard) as [|first rest]; [reflexivity|].
  destruct example_title as [[|c s]|].
  - cbn [list_first bind]. apply example_text_spec.
  - now apply get_example_scan_spec.
  - cbn [list_first bind]. apply example_text_spec.
Qed.

Lemma get_standard_raises (category : pystr) (e : exn) :
  get_standard category = Raise e ->
  e = ValueError (py "Unknown standard category: " ++ category).
Proof.
  unfold get_standard. destruct (dict_in category _STANDARDS_MAP) eqn:Hin; cbn [negb].
  - intros Hget. exfalso. revert Hin Hget.
    induction _STANDARDS_MAP as [|[k v] rest IH]; [discriminate|].
    unfold dict_in. cbn [existsb dict_get fst].
    destruct (pystr_eqb k category); [discriminate|]. exact IH.
  - intros H. now injection H as <-.
Qed.

Lemma _STANDARDS_MAP_trimmed (category : pystr) (standard : StandardInfo)
    (e : ExampleRecord) :
  get_standard category = Ok standard ->
  In e (examples standard) ->
  primary_text e <> [] /\ strip (primary_text e) = primary_text e.
Proof.
  intros Hget He. apply get_standard_In in Hget.
  assert (Hall : forallb (fun item => forallb trimmed_text (examples (snd item)))
                         _STANDARDS_MAP = true) by (vm_compute; reflexivity).
  rewrite forallb_forall in Hall. specialize (Hall _ Hget). cbn [snd] in Hall.
  rewrite forallb_forall in Hall. specialize (Hall _ He).
  unfold trimmed_text in Hall. apply andb_true_iff in Hall as [Hne Htrim].
  split.
  - intros Hnil. rewrite Hnil in Hne. discriminate Hne.
  - now apply pystr_eqb_eq.
Qed.

(** X5. [get_example] raises nothing but [ValueError], whatever the
    category and the title; and the text it returns is never empty and
    has no white space at either end. *)
Theorem get_example_outcome (category : pystr) (example_title : option pystr) :
  match get_example category example_title with
  | Ok text => text <> [] /\ strip text = text
  | Raise (ValueError _) => True
  | Raise _ => False
  end.
Proof.
  rewrite get_example_cases.
  destruct (get_standard category) as [standard|e] eqn:Hget.
  - destruct (examples standard) as [|first rest] eqn:Hexs; [exact I|].
    assert (Hfirst : In first (examples standard)) by (rewrite Hexs; now left).
    destruct example_title as [[|c s]|].
    + exact (_STANDARDS_MAP_trimmed _ _ _ Hget Hfirst).
    + rewrite <- Hexs.
      destruct (find (has_title (c :: s)) (examples standard)) as [e|] eqn:Hfind;
        [|exact I].
      apply find_some in Hfind as [He _].
      exact (_STANDARDS_MAP_trimmed _ _ _ Hget He).
    + exact (_STANDARDS_MAP_trimmed _ _ _ Hget Hfirst).
  - now rewrite (get_standard_raises _ _ Hget).
Qed.

(** X6. Every example of the store can be fetched by its own title:
    when [get_standard] returns a record and [e] is one of its examples,
    with title [t], then [get_example] with that title returns the
    primary text of [e] itself. *)
Theorem get_example_by_title (category t : pystr) (standard : StandardInfo)
    (e : ExampleRecord) :
  get_standard category = Ok standard ->
  In e (examples standard) ->
  field (py "title") e = Some (VStr t) ->
  get_example category (Some t) = Ok (primary_text e).
Proof.
  intros Hget He Ht. apply get_standard_In in Hget.
  unfold _STANDARDS_MAP in Hget. cbn [In] in Hget.
  repeat destruct Hget as [Hget|Hget]; try contradiction.
  all: injection Hget as <- <-.
  all: vm_compute in He.
  all: repeat destruct He as [He|He]; try contradiction; subst e.
  all: vm_compute in Ht; injection Ht as <-.
  all: vm_compute; reflexivity.
Qed.

Lemma get_example_by_title_witness :
  get_example (py "design_patterns") (Some (py "Strategy Pattern"))
  = Ok (primary_text (nth 1 (examples DESIGN_PATTERNS) [])).
Proof.
  apply (get_example_by_title (py "design_patterns") (py "Strategy Pattern")
           DESIGN_PATTERNS (nth 1 (examples DESIGN_PATTERNS) [])).
  - vm_compute. reflexivity.
  - vm_compute. right. left. reflexivity.
  - vm_compute. reflexivity.
Defined.

(** X7. [for_ai_assistant] raises nothing. Its two lists of guidelines
    are the ones [get_standard] returns for [ai_guidelines] and
    [project_structure], and every title in its lists [oop_principles]
    and [modern_features] is one that [get_example] finds in the category
    of the same name. *)
Theorem for_ai_assistant_consistent :
  exists summary : AiSummary,
    for_ai_assistant = Ok summary
    /\ (exists ai_std project_std : StandardInfo,
          get_standard (py "ai_guidelines") = Ok ai_std
          /\ get_standard (py "project_structure") = Ok project_std
          /\ general_guidelines summary = guidelines ai_std
          /\ project_structure summary = guidelines project_std)
    /\ Forall (fun t => exists text : pystr,
                 get_example (py "oop_principles") (Some t) = Ok text)
              (oop_principles summary)
    /\ Forall (fun t => exists text : pystr,
                 get_example (py "modern_features") (Some t) = Ok text)
              (modern_features summary).
Proof.
  eexists. split; [vm_compute; reflexivity|]. split.
  - do 2 eexists. repeat split; vm_compute; reflexivity.
  - split; cbn [oop_principles modern_features];
      repeat (apply Forall_cons; [eexists; vm_compute; reflexivity|]);
      apply Forall_nil.
Qed.

(* ================================================================== *)
(** ** Further properties of the suggestions *)
(* ================================================================== *)

Lemma count_lines {A : Type} (keep : A -> bool) (xs : list A) (n : nat) :
  fold_left (fun n x => if keep x then S n else n) xs n
  = n + List.length (filter keep xs).
Proof.
  revert n. induction xs as [|x xs IH]; intros n; cbn [fold_left filter].
  - cbn [List.length]. lia.
  - rewrite IH. destruct (keep x); cbn [List.length]; lia.
Qed.

(** The six checks, each as the one suggestion it adds or none. *)
Lemma heuristic_suggestions_checks (code_snippet : pystr) :
  heuristic_suggestions code_snippet
  = (if str_in (py "def ") code_snippet && negb (str_in (py ") ->") code_snippet)
     then [msg_type_hints] else [])
    ++ (if str_in (py "lambda") code_snippet && str_in (py "if") code_snippet
           && str_in (py "else") code_snippet
        then [msg_lambda] else [])
    ++ (if str_in (py "def __init__") code_snippet
           && (3 <=? init_assignment_lines code_snippet)%nat
        then [msg_dataclass] else [])
    ++ (if str_in (py "def ") code_snippet && str_in (py "[]") code_snippet
           && str_in (py " = []") code_snippet
        then [msg_mutable_default] else [])
    ++ (if str_in (py "open(") code_snippet
           && negb (str_in (py "with open") code_snippet)
        then [msg_context_manager] else [])
    ++ (if str_in (py "except:") code_snippet
           || str_in (py "except Exception:") code_snippet
        then [msg_specific_exceptions] else []).
Proof.
  unfold heuristic_suggestions, init_assignment_lines. cbv zeta.
  rewrite count_lines, Nat.add_0_l.
  destruct (str_in (py "def __init__") code_snippet);
    destruct (3 <=? _)%nat; cbn [andb].
  all: split_conditions; reflexivity.
Qed.

Lemma In_existsb (m : pystr) (l : list pystr) :
  In m l <-> existsb (pystr_eqb m) l = true.
Proof.
  rewrite existsb_exists. split.
  - intros Hin. exists m. split; [exact Hin | apply pystr_eqb_refl].
  - intros [x [Hin Heq]]. apply pystr_eqb_eq in Heq. now subst.
Qed.

(** X8. [suggest_improvements] never gives the same suggestion twice,
    and it returns at least two and at most eight suggestions, whatever
    the snippet. *)
Theorem suggest_improvements_nodup (code_snippet : pystr) :
  NoDup (suggest_improvements code_snippet)
  /\ 2 <= List.length (suggest_improvements code_snippet) <= 8.
Proof.
  rewrite suggest_improvements_split, heuristic_suggestions_checks.
  split_conditions.
  all: split; [apply nodupb_NoDup; vm_compute; reflexivity | vm_compute; lia].
Qed.

Lemma suggest_improvements_mem (code_snippet : pystr) :
  let checks (m : pystr) := In m (suggest_improvements code_snippet) in
  (checks msg_type_hints
   <-> str_in (py "def ") code_snippet
       && negb (str_in (py ") ->") code_snippet) = true)
  /\ (checks msg_lambda
      <-> str_in (py "lambda") code_snippet && str_in (py "if") code_snippet
          && str_in (py "else") code_snippet = true)
  /\ (checks msg_dataclass
      <-> str_in (py "def __init__") code_snippet
          && (3 <=? init_assignment_lines code_snippet)%nat = true)
  /\ (checks msg_mutable_default
      <-> str_in (py "def ") code_snippet && str_in (py "[]") code_snippet
          && str_in (py " = []") code_snippet = true)
  /\ (checks msg_context_manager
      <-> str_in (py "open(") code_snippet
          && negb (str_in (py "with open") code_snippet) = true)
  /\ (checks msg_specific_exceptions
      <-> str_in (py "except:") code_snippet
          || str_in (py "except Exception:") code_snippet = true).
Proof.
  cbv zeta. rewrite suggest_improvements_split, heuristic_suggestions_checks.
  rewrite !In_existsb.
  split_conditions.
  all: vm_compute; tauto.
Qed.

(** Literals are compared as they are written while the next statements
    are proved. *)
Opaque py.

(** X9. Each suggestion of [suggest_improvements] appears exactly when
    its pattern is present: the one on type hints when the snippet holds
    [def ] and no [) ->]; the one on lambdas when it holds [lambda], [if]
    and [else]; the one on data classes when it holds [def __init__] and
    at least three lines with both [self.] and [ = ]; the one on mutable
    defaults when it holds [def ] and [ = []]; the one on context
    managers when it holds [open(] and no [with open]; the one on
    exceptions when it holds [except:] or [except Exception:]. *)
Theorem suggest_improvements_triggers (code_snippet : pystr) :
  (In msg_type_hints (suggest_improvements code_snippet)
   <-> str_in (py "def ") code_snippet = true
       /\ str_in (py ") ->") code_snippet = false)
  /\ (In msg_lambda (suggest_improvements code_snippet)
      <-> str_in (py "lambda") code_snippet = true
          /\ str_in (py "if") code_snippet = true
          /\ str_in (py "else") code_snippet = true)
  /\ (In msg_dataclass (suggest_improvements code_snippet)
      <-> str_in (py "def __init__") code_snippet = true
          /\ 3 <= init_assignment_lines code_snippet)
  /\ (In msg_mutable_default (suggest_improvements code_snippet)
      <-> str_in (py "def ") code_snippet = true
          /\ str_in (py " = []") code_snippet = true)
  /\ (In msg_context_manager (suggest_improvements code_snippet)
      <-> str_in (py "open(") code_snippet = true
          /\ str_in (py "with open") code_snippet = false)
  /\ (In msg_specific_exceptions (suggest_improvements code_snippet)
      <-> str_in (py "except:") code_snippet = true
          \/ str_in (py "except Exception:") code_snippet = true).
Proof.
  destruct (suggest_improvements_mem code_snippet)
    as (H1 & H2 & H3 & H4 & H5 & H6).
  cbv zeta in H1, H2, H3, H4, H5, H6.
  split; [etransitivity; [exact H1|]|].
  { rewrite andb_true_iff, negb_true_iff. reflexivity. }
  split; [etransitivity; [exact H2|]|].
  { rewrite !andb_true_iff. apply and_assoc. }
  split; [etransitivity; [exact H3|]|].
  { rewrite andb_true_iff, Nat.leb_le. reflexivity. }
  split; [etransitivity; [exact H4|]|].
  { rewrite !andb_true_iff. split.
    - intros [[Hdef _] Hassign]. split; [exact Hdef | exact Hassign].
    - intros [Hdef Hassign]. split; [split; [exact Hdef|] | exact Hassign].
      apply (str_in_trans _ (py " = []")); [vm_compute; reflexivity | exact Hassign]. }
  split; [etransitivity; [exact H5|]|].
  { rewrite andb_true_iff, negb_true_iff. reflexivity. }
  etransitivity; [exact H6|]. rewrite orb_true_iff. reflexivity.
Qed.

Transparent py.

(* ================================================================== *)
(** ** Further properties of the response templater *)
(* ================================================================== *)

Ltac closed_response :=
  eexists; split; [vm_compute; reflexivity|].

(** X10. [generate_standard_response] raises nothing, whatever the
    query: it returns a text that holds a [##] heading, and never one of
    the three templates kept for an example that cannot be fetched. *)
Theorem generate_standard_response_total (query : pystr) :
  exists out : pystr,
    generate_standard_response query = Ok out
    /\ str_in (py "##") out = true
    /\ existsb (pystr_eqb out) plain_responses = false.
Proof.
  unfold generate_standard_response. split_conditions.
  all: closed_response; split; vm_compute; reflexivity.
Qed.

(** X11. A query that mentions [dataclass] is never answered with the
    response on modern features, although [dataclass] is a keyword of
    that topic: [class], a keyword of the topic on object orientation
    that is tried before, occurs inside it. *)
Theorem generate_standard_response_dataclass (query : pystr) :
  str_in (py "dataclass") (lower query) = true ->
  any_term_in [py "oop"; py "class"; py "object"; py "inheritance"]
              (lower query) = true
  /\ exists out : pystr,
       generate_standard_response query = Ok out
       /\ str_in (py "## Modern Python Features") out = false.
Proof.
  intros Hquery.
  assert (Hclass : str_in (py "class") (lower query) = true).
  { apply (str_in_trans _ (py "dataclass")); [vm_compute; reflexivity | exact Hquery]. }
  assert (Hoop : any_term_in [py "oop"; py "class"; py "object"; py "inheritance"]
                             (lower query) = true).
  { unfold any_term_in. cbn [existsb]. rewrite Hclass. now rewrite orb_true_r. }
  split; [exact Hoop|].
  unfold generate_standard_response. cbv zeta. rewrite Hoop.
  destruct (any_term_in [py "structure"; py "layout"; py "organization"] _);
    [closed_response; vm_compute; reflexivity|].
  destruct (any_term_in [py "tools"; py "toolchain"; py "configuration"; py "setup"] _);
    closed_response; vm_compute; reflexivity.
Qed.

Lemma generate_standard_response_dataclass_witness :
  any_term_in [py "oop"; py "class"; py "object"; py "inheritance"]
              (lower (py "How do I use a dataclass?")) = true
  /\ exists out : pystr,
       generate_standard_response (py "How do I use a dataclass?") = Ok out
       /\ str_in (py "## Modern Python Features") out = false.
Proof.
  apply (generate_standard_response_dataclass (py "How do I use a dataclass?")).
  vm_compute. reflexivity.
Defined.

(* ================================================================== *)
(** ** The search command *)
(* ================================================================== *)

Lemma dict_set_cons {V : Type} (d : list (pystr * V)) (key : pystr) (v : V) :
  exists entry rest, dict_set d key v = entry :: rest.
Proof. destruct d as [|[k w] rest]; cbn [dict_set]; [|destruct (pystr_eqb k key)]; eauto. Qed.

Lemma dict_get_dict_set {V : Type} (d : list (pystr * V)) (key : pystr) (v : V) :
  dict_get (dict_set d key v) key = Ok v.
Proof.
  induction d as [|[k w] rest IH]; cbn [dict_set dict_get].
  - now rewrite pystr_eqb_refl.
  - destruct (pystr_eqb k key) eqn:E; cbn [dict_get]; rewrite E; [reflexivity | exact IH].
Qed.

Lemma dict_in_get {V : Type} (d : list (pystr * V)) (key : pystr) :
  dict_in key d = true -> exists v, dict_get d key = Ok v.
Proof.
  unfold dict_in. induction d as [|[k w] rest IH]; cbn [existsb dict_get fst];
    [discriminate|].
  destruct (pystr_eqb k key); [intros _; now exists w | exact IH].
Qed.

Lemma group_step_cons (by_category : list (pystr * list (pystr * pystr)))
    (r : search_result) :
  exists entry rest, group_step by_category r = Ok (entry :: rest).
Proof.
  unfold group_step. cbv zeta.
  destruct (dict_in (fst (fst r)) by_category) eqn:Hin; cbn [negb].
  - destruct (dict_in_get _ _ Hin) as [items ->]. cbn [bind].
    destruct (dict_set_cons by_category (fst (fst r))
                (items ++ [(snd (fst r), snd r)])) as [entry [rest ->]].
    now exists entry, rest.
  - rewrite dict_get_dict_set. cbn [bind].
    destruct (dict_set_cons (dict_set by_category (fst (fst r)) [])
                (fst (fst r)) ([] ++ [(snd (fst r), snd r)])) as [entry [rest ->]].
    now exists entry, rest.
Qed.

Lemma group_by_category_cons (results : list search_result)
    (by_category : list (pystr * list (pystr * pystr))) :
  results <> [] \/ by_category <> [] ->
  exists entry rest, group_by_category results by_category = Ok (entry :: rest).
Proof.
  revert by_category. induction results as [|r results IH]; intros by_category H.
  - destruct by_category as [|entry rest]; [destruct H; contradiction|].
    now exists entry, rest.
  - cbn [group_by_category].
    destruct (group_step_cons by_category r) as [entry [rest ->]]. cbn [bind].
    apply IH. right. discriminate.
Qed.


(* ================================================================== *)
(** ** The show command *)
(* ================================================================== *)

Lemma appends_print (r : renderable) : appends (print r).
Proof. intros printed. reflexivity. Qed.

Lemma appends_ret {A : Type} (a : A) : appends (io_ret a).
Proof. intros printed. unfold io_ret. cbn [fst snd]. now rewrite app_nil_r. Qed.

Lemma appends_fail {A : Type} (e : cli_exn) : appends (@io_fail A e).
Proof. intros printed. unfold io_fail. cbn [fst snd]. now rewrite app_nil_r. Qed.

Lemma appends_lift {A : Type} (r : result A) : appends (io_lift r).
Proof.
  intros printed. unfold io_lift. destruct r; cbn [fst snd]; now rewrite app_nil_r.
Qed.

Lemma appends_bind {A B : Type} (m : io A) (k : A -> io B) :
  appends m -> (forall a, appends (k a)) -> appends (io_bind m k).
Proof.
  intros Hm Hk printed. unfold io_bind. rewrite (Hm printed).
  destruct (m []) as [[a|e] out]; cbn [fst snd].
  - rewrite (Hk a (printed ++ out)), (Hk a out). cbn [fst snd].
    now rewrite app_assoc.
  - reflexivity.
Qed.

Lemma appends_for {A : Type} (xs : list A) (body : A -> io unit) :
  (forall x, appends (body x)) -> appends (io_for xs body).
Proof.
  intros Hbody. induction xs as [|x xs IH]; cbn [io_for].
  - apply appends_ret.
  - apply appends_bind; [apply Hbody | intros _; exact IH].
Qed.

Lemma appends_print_numbered (gs : list pystr) (i : nat) :
  appends (print_numbered i gs).
Proof.
  revert i. induction gs as [|g gs IH]; intros i; cbn [print_numbered].
  - apply appends_ret.
  - apply appends_bind; [apply appends_print | intros _; apply IH].
Qed.

Lemma appends_print_field (kv : pystr * pyval) : appends (print_field kv).
Proof.
  unfold print_field. cbv zeta.
  destruct (pystr_eqb (fst kv) (py "title")); [apply appends_ret|].
  destruct (existsb _ _).
  - apply appends_bind.
    + unfold val_strip. destruct (snd kv); [apply appends_ret | apply appends_fail].
    + intros [|c s]; [apply appends_ret | apply appends_print].
  - destruct (pystr_eqb (fst kv) (py "commands")); [|apply appends_print].
    apply appends_bind; [|intros cmds; apply appends_print].
    unfold val_items. destruct (snd kv); [apply appends_fail | apply appends_ret].
Qed.

Lemma appends_print_example (example : ExampleRecord) :
  appends (print_example example).
Proof.
  unfold print_example.
  apply appends_bind; [apply appends_lift | intros t].
  apply appends_bind; [apply appends_print | intros _].
  apply appends_for, appends_print_field.
Qed.

Lemma appends_show_standard (category : pystr) :
  appends (show_standard category).
Proof.
  unfold show_standard.
  destruct (get_standard category) as [standard|[msg|key|msg|msg|msg]].
  2: apply appends_print.
  2-5: apply appends_fail.
  repeat (apply appends_bind; [apply appends_print | intros _]).
  apply appends_bind; [apply appends_print_numbered | intros _].
  destruct (examples standard) as [|e es]; [apply appends_ret|].
  apply appends_bind; [apply appends_print | intros _].
  apply appends_for, appends_print_example.
Qed.


(** X14. When [get_example] succeeds with a non-empty title, an example
    of the category has exactly that title, and the text returned is the
    primary text of such an example. *)
Theorem get_example_found (category t text : pystr) (standard : StandardInfo) :
  t <> [] ->
  get_standard category = Ok standard ->
  get_example category (Some t) = Ok text ->
  exists e : ExampleRecord,
    In e (examples standard)
    /\ field (py "title") e = Some (VStr t)
    /\ text = primary_text e.
Proof.
  intros Hne Hget Hex. rewrite get_example_cases, Hget in Hex.
  destruct (examples standard) as [|first rest] eqn:Hexs; [discriminate|].
  destruct t as [|c s]; [contradiction|]. rewrite <- Hexs in Hex.
  destruct (find (has_title (c :: s)) (examples standard)) as [e|] eqn:Hfind;
    [|discriminate].
  injection Hex as <-. apply find_some in Hfind as [He Htitle].
  exists e. split; [rewrite <- Hexs; exact He|]. split; [|reflexivity].
  unfold has_title in Htitle.
  destruct (field (py "title") e) as [[v|d]|]; try discriminate.
  cbn [val_eq_str] in Htitle. apply pystr_eqb_eq in Htitle. now subst.
Qed.

Lemma get_example_found_witness :
  exists e : ExampleRecord,
    In e (examples DESIGN_PATTERNS)
    /\ field (py "title") e = Some (VStr (py "Factory Pattern"))
    /\ primary_text (hd [] (examples DESIGN_PATTERNS)) = primary_text e.
Proof.
  apply (get_example_found (py "design_patterns") (py "Factory Pattern")
           (primary_text (hd [] (examples DESIGN_PATTERNS))) DESIGN_PATTERNS).
  - vm_compute. discriminate.
  - vm_compute. reflexivity.
  - vm_compute. reflexivity.
Defined.
